(** * The scheduling core of nl-kat-coordination (mula) and its client in
    rocky, embedded in Rocq

    The development follows four source files:
    - [mula/scheduler/rankers/boefje.py]        (module [BoefjeRanker]),
    - [mula/scheduler/schedulers/scheduler.py]  (module [Scheduler]),
    - [mula/scheduler/connectors/services/octopoes.py] (module [Octopoes]),
    - [rocky/rocky/scheduler.py]                (module [Rocky]).

    Python methods are state-passing functions in a small state and
    exception monad; collaborators whose code lives elsewhere (the
    Task/Job store, the priority queue, the HTTP transport) are either
    parameters of a section or models written from the specification
    and marked as such. *)

From Stdlib Require Import ZArith Floats Uint63 Lia.
From stdpp Require Import base option list gmap strings.

Open Scope Z_scope.

(** ** Exceptions and the effect monad *)

(** The Python exception classes that the embedded code raises, catches
    or lets through.  All of them derive from [Exception]. *)
Inductive Exn : Type :=
  | NotAllowedError
  | QueueFullError
  | InvalidPrioritizedItemError
  | QueueEmptyError
  | StorageError
  | AttributeError
  | TypeError
  | OverflowError
  | ValueError
  | ValidationError
  | HTTPError
  | ExternalServiceError.

Global Instance Exn_eq_dec : EqDecision Exn.
Proof. solve_decision. Defined.

(** How a Python call ends: it returns a value or raises. *)
Inductive Outcome (A : Type) : Type :=
  | Returned (a : A)
  | Raised (e : Exn).
Arguments Returned {A} a.
Arguments Raised {A} e.

(** A computation over a mutable world [W]; the world survives a raise
    (what was written or logged before the exception stays). *)
Definition Eff (W A : Type) : Type := W -> Outcome A * W.

Definition ret {W A} (a : A) : Eff W A := fun w => (Returned a, w).

Definition raise {W A} (e : Exn) : Eff W A := fun w => (Raised e, w).

Definition bind {W A B} (c : Eff W A) (k : A -> Eff W B) : Eff W B :=
  fun w =>
    match c w with
    | (Returned a, w') => k a w'
    | (Raised e, w') => (Raised e, w')
    end.

(** [try: c  except Exception as e: h e] *)
Definition try_except {W A} (c : Eff W A) (h : Exn -> Eff W A) : Eff W A :=
  fun w =>
    match c w with
    | (Returned a, w') => (Returned a, w')
    | (Raised e, w') => h e w'
    end.

Definition get_world {W} : Eff W W := fun w => (Returned w, w).

Definition modify {W} (f : W -> W) : Eff W unit := fun w => (Returned tt, f w).

(** A call of a pure collaborator that may raise. *)
Definition lift {W A} (o : Outcome A) : Eff W A := fun w => (o, w).

Notation "x <~ c ;; k" := (bind c (fun x => k))
  (at level 100, c at next level, right associativity).
Notation "c ;;; k" := (bind c (fun _ => k))
  (at level 100, right associativity).

(** ** datetime and timedelta *)

Module Timedelta.

(** An aware UTC [datetime], as microseconds since the epoch. *)
Definition datetime : Type := Z.

(** Python's [timedelta] is stored normalised:
    [0 <= seconds < 86400] and [0 <= microseconds < 1000000];
    only [days] carries the sign. *)
Record timedelta : Type := mk_timedelta {
  days : Z;
  seconds : Z;
  microseconds : Z
}.

Definition US_PER_SECOND : Z := 1000000.
Definition US_PER_DAY : Z := 86400 * US_PER_SECOND.
Definition MAX_DELTA_DAYS : Z := 999999999.

(** Normalisation of a number of microseconds; [OverflowError] when the
    day count leaves [-999999999 .. 999999999]. *)
Definition of_microseconds (us : Z) : Outcome timedelta :=
  let d := us / US_PER_DAY in
  let r := us mod US_PER_DAY in
  if (Z.abs d >? MAX_DELTA_DAYS) then Raised OverflowError
  else Returned {| days := d;
                   seconds := r / US_PER_SECOND;
                   microseconds := r mod US_PER_SECOND |}.

Definition total_microseconds (td : timedelta) : Z :=
  days td * US_PER_DAY + seconds td * US_PER_SECOND + microseconds td.

(** [timedelta(seconds=n)] for an integer [n]. *)
Definition of_seconds (n : Z) : Outcome timedelta :=
  of_microseconds (n * US_PER_SECOND).

(** [a - b] on datetimes. *)
Definition datetime_sub (a b : datetime) : Outcome timedelta :=
  of_microseconds (a - b).

(** [a - b] on timedeltas. *)
Definition sub (a b : timedelta) : Outcome timedelta :=
  of_microseconds (total_microseconds a - total_microseconds b).

End Timedelta.

(** ** Python floats (binary64) *)

Module PyFloat.

(** [float(z)] for an integer that a double represents exactly
    (here always below [2^53] in absolute value). *)
Definition of_int (z : Z) : float :=
  if z <? 0 then PrimFloat.opp (PrimFloat.of_uint63 (Uint63.of_Z (- z)))
  else PrimFloat.of_uint63 (Uint63.of_Z z).

(** [a / b] on two integers: Python's true division, the correctly
    rounded quotient, which for exactly representable operands is the
    IEEE quotient of their conversions. *)
Definition truediv (a b : Z) : float := PrimFloat.div (of_int a) (of_int b).

(** [int(x)]: truncation towards zero; [OverflowError] on an infinity
    and [ValueError] on a NaN. *)
Definition to_int (x : float) : Outcome Z :=
  match Prim2SF x with
  | S754_zero _ => Returned 0
  | S754_finite s m e =>
      let v := if 0 <=? e then Z.shiftl (Z.pos m) e
               else Z.shiftr (Z.pos m) (- e) in
      Returned (if s then - v else v)
  | S754_infinity _ => Raised OverflowError
  | S754_nan => Raised ValueError
  end.

End PyFloat.

(** ** rankers/boefje.py *)

Module BoefjeRanker.
Import Timedelta.

Definition MAX_PRIORITY : Z := 1000.
Definition MAX_DAYS : Z := 7.

(** A prior execution as [rank] reads it: the fields of the stored task
    that the method touches. *)
Record PriorTask : Type := {
  modified_at : datetime;
  started_at : datetime;
  finished_at : datetime;
  input_ooi_reference : string
}.

(** The task being ranked: [task.hash] and [task.organisation_id]. *)
Record RankedTask : Type := {
  hash : string;
  organisation_id : string
}.

(** What [self.logger.info] receives inside the loop. *)
Inductive LogRecord : Type :=
  | InfoDuration (d : Z)
  | InfoChildren (children : list string)
  | InfoFindings (findings : list string).

(** [self.ctx] and the wall clock, as far as [rank] uses them. *)
Record Ctx : Type := {
  pq_populate_grace_period : Z;
  utcnow : datetime;
  get_tasks_by_hash : string -> Outcome (option (list PriorTask));
  get_children_by_ooi : string -> string -> Outcome (list string);
  get_findings_by_ooi : string -> string -> Outcome (list string)
}.

Definition info (r : LogRecord) : Eff (list LogRecord) unit :=
  modify (fun l => l ++ [r]).

(** The body of [for prior_task in prior_tasks] (lines 45-62). *)
Definition inspect (ctx : Ctx) (task : RankedTask) (prior_task : PriorTask)
  : Eff (list LogRecord) unit :=
  d <~ lift (datetime_sub (finished_at prior_task) (started_at prior_task)) ;;
  info (InfoDuration (seconds d)) ;;;
  children <~ lift (get_children_by_ooi ctx (organisation_id task)
                      (input_ooi_reference prior_task)) ;;
  info (InfoChildren children) ;;;
  findings <~ lift (get_findings_by_ooi ctx (organisation_id task)
                      (input_ooi_reference prior_task)) ;;
  info (InfoFindings findings).

Fixpoint for_each {W A} (body : A -> Eff W unit) (l : list A) : Eff W unit :=
  match l with
  | [] => ret tt
  | x :: l' => body x ;;; for_each body l'
  end.

(** Line 64:
    [int(3 + (max_priority - 3) * (1 - t / max_days_in_seconds))]. *)
Definition interpolate (max_priority t max_days_in_seconds : Z) : Outcome Z :=
  PyFloat.to_int
    (PrimFloat.add (PyFloat.of_int 3)
       (PrimFloat.mul (PyFloat.of_int (max_priority - 3))
          (PrimFloat.sub (PyFloat.of_int 1)
             (PyFloat.truediv t max_days_in_seconds)))).

(** [BoefjeRanker.rank] (lines 13-64). *)
Definition rank (ctx : Ctx) (task : RankedTask) : Eff (list LogRecord) Z :=
  let max_priority := MAX_PRIORITY in
  let max_days_in_seconds := MAX_DAYS * (60 * 60 * 24) in
  grace_period <~ lift (of_seconds (pq_populate_grace_period ctx)) ;;
  prior_tasks <~ lift (get_tasks_by_hash ctx (hash task)) ;;
  match prior_tasks with
  | None | Some [] => ret 2
  | Some ((last :: _) as prior_tasks) =>
      since_last <~ lift (datetime_sub (utcnow ctx) (modified_at last)) ;;
      since_grace <~ lift (sub since_last grace_period) ;;
      let time_since_grace_period := seconds since_grace in
      if time_since_grace_period <? 0 then ret (-1)
      else if time_since_grace_period >=? max_days_in_seconds then ret 3
      else
        for_each (inspect ctx task) prior_tasks ;;;
        lift (interpolate max_priority time_since_grace_period
                max_days_in_seconds)
  end.

(** Bounded universal quantification by enumeration. *)
Fixpoint all_from (n : nat) (lo : Z) (p : Z -> bool) : bool :=
  match n with
  | O => true
  | S k => p lo && all_from k (Z.succ lo) p
  end.

(** The interpolated value satisfies the inequalities that pin it to
    [3 + floor (997 * (604800 - t) / 604800)]. *)
Definition interpolate_checks (t : Z) : bool :=
  match interpolate MAX_PRIORITY t (MAX_DAYS * (60 * 60 * 24)) with
  | Returned v =>
      (604800 * (v - 3) <=? 997 * (604800 - t))
      && (997 * (604800 - t) <? 604800 * (v - 2))
  | Raised _ => false
  end.

(** *** Vocabulary for the statements *)

(** What line 37 reads: the [seconds] field of the difference, that is,
    the whole seconds of its time of day. *)
Definition seconds_since_grace (ctx : Ctx) (last : PriorTask) : Z :=
  ((utcnow ctx - modified_at last
    - pq_populate_grace_period ctx * US_PER_SECOND) mod US_PER_DAY)
  / US_PER_SECOND.

(** *** Sample inputs *)

(** A context whose collaborators answer without failing: the store
    returns [history] for every hash and the object graph is empty. *)
Definition quiet_ctx (grace : Z) (now : datetime) (history : list PriorTask)
  : Ctx :=
  {| pq_populate_grace_period := grace;
     utcnow := now;
     get_tasks_by_hash := fun _ => Returned (Some history);
     get_children_by_ooi := fun _ _ => Returned [];
     get_findings_by_ooi := fun _ _ => Returned [] |}.

(** A prior execution that took five seconds and was last modified at [t]. *)
Definition ran_at (t : datetime) : PriorTask :=
  {| modified_at := t;
     started_at := t - 5 * US_PER_SECOND;
     finished_at := t;
     input_ooi_reference := "Hostname|internet|example.com" |}.

Definition sample_task : RankedTask :=
  {| hash := "9f2c"; organisation_id := "org-1" |}.

(** 2023-11-14T22:13:20Z *)
Definition sample_instant : datetime := 1700000000 * US_PER_SECOND.


(** A context whose object graph is out of reach. *)
Definition broken_graph_ctx (grace : Z) (now : datetime)
  (history : list PriorTask) : Ctx :=
  {| pq_populate_grace_period := grace;
     utcnow := now;
     get_tasks_by_hash := fun _ => Returned (Some history);
     get_children_by_ooi := fun _ _ => Raised ExternalServiceError;
     get_findings_by_ooi := fun _ _ => Returned [] |}.

End BoefjeRanker.

(** ** schedulers/scheduler.py *)

Module Scheduler.
Import Timedelta.

(** *** Data model ([models.PrioritizedItem], [models.Task], [models.Job]) *)

Record PrioritizedItem : Type := {
  p_id : string;
  p_hash : option string;
  p_priority : Z;
  p_data : gmap string string
}.

Global Instance PrioritizedItem_eq_dec : EqDecision PrioritizedItem.
Proof. solve_decision. Defined.

Inductive TaskStatus : Type :=
  | PENDING | QUEUED | DISPATCHED | RUNNING | COMPLETED | FAILED.

Global Instance TaskStatus_eq_dec : EqDecision TaskStatus.
Proof. solve_decision. Defined.

Record Task : Type := {
  t_id : string;
  t_scheduler_id : string;
  t_type : string;
  t_p_item : PrioritizedItem;
  t_status : TaskStatus;
  t_job_id : option string;
  t_created_at : datetime;
  t_modified_at : datetime
}.

Record Job : Type := {
  j_id : string;
  j_scheduler_id : string;
  j_hash : string;
  j_enabled : bool;
  j_p_item : PrioritizedItem;
  j_created_at : datetime;
  j_modified_at : datetime
}.

Definition set_status (s : TaskStatus) (t : Task) : Task :=
  {| t_id := t_id t; t_scheduler_id := t_scheduler_id t; t_type := t_type t;
     t_p_item := t_p_item t; t_status := s; t_job_id := t_job_id t;
     t_created_at := t_created_at t; t_modified_at := t_modified_at t |}.

Definition set_job_id (j : option string) (t : Task) : Task :=
  {| t_id := t_id t; t_scheduler_id := t_scheduler_id t; t_type := t_type t;
     t_p_item := t_p_item t; t_status := t_status t; t_job_id := j;
     t_created_at := t_created_at t; t_modified_at := t_modified_at t |}.

Definition set_enabled (b : bool) (j : Job) : Job :=
  {| j_id := j_id j; j_scheduler_id := j_scheduler_id j; j_hash := j_hash j;
     j_enabled := b; j_p_item := j_p_item j;
     j_created_at := j_created_at j; j_modified_at := j_modified_at j |}.

(** *** Logging *)

Inductive LogLevel : Type := DEBUG | INFO | WARNING | ERROR.

Inductive LogArg : Type :=
  | ArgStr (s : option string)
  | ArgInt (z : Z)
  | ArgItem (p : PrioritizedItem)
  | ArgExn (e : Exn).

Record LogRecord : Type := {
  level : LogLevel;
  msg : string;
  args : list LogArg
}.

(** *** The Task/Job store *)

(** The calls the scheduler makes on [ctx.task_store] and [ctx.job_store],
    recorded in the order they are made. *)
Inductive StoreCall : Type :=
  | GetTaskById (task_id : string)
  | CreateTask (t : Task)
  | UpdateTask (t : Task)
  | GetJobByHash (h : string)
  | CreateJob (j : Job)
  | UpdateJob (j : Job).

(** How the store answers one call.  [YieldsNone] is the failure that
    [post_push] tests for after [create_task] and that a [create_job] can
    show as well: nothing is stored and [None] comes back.  The lookups
    and updates ignore it. *)
Inductive StoreFault : Type :=
  | NoFault
  | YieldsNone
  | RaisesError.

(** Modelled from the spec: the Task/Job store, which the scheduler
    reaches only through its CRUD contract (section 6).  Rows are kept
    in tables (lists), so that a duplicated row is expressible; [faults]
    scripts the answers to the coming calls (head first, [NoFault] once
    the script is used up) and [calls] is the trace of calls made. *)
Record Store : Type := {
  task_rows : list Task;
  job_rows : list Job;
  faults : list StoreFault;
  calls : list StoreCall
}.

(** *** The priority queue, as the scheduler uses it *)

(** [queues.PriorityQueue] is defined elsewhere in the package; the
    scheduler needs its identity, its bounds and [push]/[pop], each of
    which may raise. *)
Class PriorityQueue (Q : Type) : Type := {
  pq_id : Q -> string;
  item_type : Q -> string;
  maxsize : Q -> Z;
  qsize : Q -> Z;
  push : PrioritizedItem -> Eff Q unit;
  pop : option (list string) -> Eff Q (option PrioritizedItem)
}.

(** *** The world a scheduler method runs in *)

Record World (Q : Type) : Type := {
  scheduler_id : string;
  queue : Q;
  store : Store;
  logs : list LogRecord;
  (** [datetime.now(timezone.utc)]: the k-th reading is [clock k]. *)
  clock : nat -> datetime;
  clock_reads : nat;
  (** [uuid4()] as drawn by the [models.Job] constructor. *)
  uuid4 : nat -> string;
  uuids_drawn : nat;
  (** What the other threads do to the queue during the k-th sleep. *)
  other_threads : nat -> Q -> Q;
  slept : list Z
}.
Arguments scheduler_id {Q} _.
Arguments queue {Q} _.
Arguments store {Q} _.
Arguments logs {Q} _.
Arguments clock {Q} _ _.
Arguments clock_reads {Q} _.
Arguments uuid4 {Q} _ _.
Arguments uuids_drawn {Q} _.
Arguments other_threads {Q} _ _ _.
Arguments slept {Q} _.

Section Methods.
Context {Q : Type} `{PriorityQueue Q}.

Definition with_queue (q : Q) (w : World Q) : World Q :=
  {| scheduler_id := scheduler_id w; queue := q; store := store w;
     logs := logs w; clock := clock w; clock_reads := clock_reads w;
     uuid4 := uuid4 w; uuids_drawn := uuids_drawn w;
     other_threads := other_threads w; slept := slept w |}.

Definition with_store (s : Store) (w : World Q) : World Q :=
  {| scheduler_id := scheduler_id w; queue := queue w; store := s;
     logs := logs w; clock := clock w; clock_reads := clock_reads w;
     uuid4 := uuid4 w; uuids_drawn := uuids_drawn w;
     other_threads := other_threads w; slept := slept w |}.

Definition with_logs (l : list LogRecord) (w : World Q) : World Q :=
  {| scheduler_id := scheduler_id w; queue := queue w; store := store w;
     logs := l; clock := clock w; clock_reads := clock_reads w;
     uuid4 := uuid4 w; uuids_drawn := uuids_drawn w;
     other_threads := other_threads w; slept := slept w |}.

Definition with_clock_reads (n : nat) (w : World Q) : World Q :=
  {| scheduler_id := scheduler_id w; queue := queue w; store := store w;
     logs := logs w; clock := clock w; clock_reads := n;
     uuid4 := uuid4 w; uuids_drawn := uuids_drawn w;
     other_threads := other_threads w; slept := slept w |}.

Definition with_uuids_drawn (n : nat) (w : World Q) : World Q :=
  {| scheduler_id := scheduler_id w; queue := queue w; store := store w;
     logs := logs w; clock := clock w; clock_reads := clock_reads w;
     uuid4 := uuid4 w; uuids_drawn := n;
     other_threads := other_threads w; slept := slept w |}.

Definition with_slept (q : Q) (l : list Z) (w : World Q) : World Q :=
  {| scheduler_id := scheduler_id w; queue := q; store := store w;
     logs := logs w; clock := clock w; clock_reads := clock_reads w;
     uuid4 := uuid4 w; uuids_drawn := uuids_drawn w;
     other_threads := other_threads w; slept := l |}.

(** [self.logger.<level>(msg, *args)] *)
Definition log (lv : LogLevel) (m : string) (a : list LogArg)
  : Eff (World Q) unit :=
  modify (fun w => with_logs (logs w ++ [{| level := lv; msg := m; args := a |}]) w).

(** [datetime.now(timezone.utc)] *)
Definition now_utc : Eff (World Q) datetime :=
  fun w => (Returned (clock w (clock_reads w)),
            with_clock_reads (S (clock_reads w)) w).

(** [uuid.uuid4()] *)
Definition new_uuid : Eff (World Q) string :=
  fun w => (Returned (uuid4 w (uuids_drawn w)),
            with_uuids_drawn (S (uuids_drawn w)) w).

(** [time.sleep(timeout)]: the calling thread is parked and the other
    threads run; a negative length raises. *)
Definition sleep (timeout : Z) : Eff (World Q) unit :=
  if timeout <? 0 then raise ValueError
  else modify (fun w =>
         with_slept (other_threads w (length (slept w)) (queue w))
                    (slept w ++ [timeout]) w).

(** Runs a queue method on [self.queue]. *)
Definition on_queue {A} (c : Eff Q A) : Eff (World Q) A :=
  fun w => let '(r, q) := c (queue w) in (r, with_queue q w).

(** **** Store operations *)

(** Registers a call with the store and takes the scripted answer. *)
Definition request (c : StoreCall) : Eff (World Q) StoreFault :=
  fun w =>
    let s := store w in
    (Returned (hd NoFault (faults s)),
     with_store {| task_rows := task_rows s; job_rows := job_rows s;
                   faults := tl (faults s); calls := calls s ++ [c] |} w).

Definition write_tasks (f : list Task -> list Task) : Eff (World Q) unit :=
  modify (fun w =>
    let s := store w in
    with_store {| task_rows := f (task_rows s); job_rows := job_rows s;
                  faults := faults s; calls := calls s |} w).

Definition write_jobs (f : list Job -> list Job) : Eff (World Q) unit :=
  modify (fun w =>
    let s := store w in
    with_store {| task_rows := task_rows s; job_rows := f (job_rows s);
                  faults := faults s; calls := calls s |} w).

(** The row rewriting of an update: the rows whose key is that of the
    given record take its value. *)
Definition replace_task (t : Task) (rows : list Task) : list Task :=
  map (fun r => if bool_decide (t_id r = t_id t) then t else r) rows.

Definition replace_job (j : Job) (rows : list Job) : list Job :=
  map (fun r => if bool_decide (j_id r = j_id j) then j else r) rows.

Definition get_task_by_id (task_id : string) : Eff (World Q) (option Task) :=
  f <~ request (GetTaskById task_id) ;;
  match f with
  | RaisesError => raise StorageError
  | _ =>
      w <~ get_world ;;
      ret (find (fun r => bool_decide (t_id r = task_id)) (task_rows (store w)))
  end.

Definition create_task (t : Task) : Eff (World Q) (option Task) :=
  f <~ request (CreateTask t) ;;
  match f with
  | RaisesError => raise StorageError
  | YieldsNone => ret None
  | NoFault => write_tasks (fun rows => rows ++ [t]) ;;; ret (Some t)
  end.

Definition update_task (t : Task) : Eff (World Q) unit :=
  f <~ request (UpdateTask t) ;;
  match f with
  | RaisesError => raise StorageError
  | _ => write_tasks (replace_task t)
  end.

Definition get_job_by_hash (h : string) : Eff (World Q) (option Job) :=
  f <~ request (GetJobByHash h) ;;
  match f with
  | RaisesError => raise StorageError
  | _ =>
      w <~ get_world ;;
      ret (find (fun r => bool_decide (j_hash r = h)) (job_rows (store w)))
  end.

Definition create_job (j : Job) : Eff (World Q) (option Job) :=
  f <~ request (CreateJob j) ;;
  match f with
  | RaisesError => raise StorageError
  | YieldsNone => ret None
  | NoFault => write_jobs (fun rows => rows ++ [j]) ;;; ret (Some j)
  end.

Definition update_job (j : Job) : Eff (World Q) unit :=
  f <~ request (UpdateJob j) ;;
  match f with
  | RaisesError => raise StorageError
  | _ => write_jobs (replace_job j)
  end.

(** **** Scheduler methods *)

(** The arguments [p_item.data.get("id"), p_item.data.get("id"),
    self.queue.pq_id] shared by the warnings of [post_push] and
    [post_pop]. *)
Definition item_args (p_item : PrioritizedItem) (w : World Q) : list LogArg :=
  [ArgStr (p_data p_item !! "id"); ArgStr (p_data p_item !! "id");
   ArgStr (Some (pq_id (queue w)))].

(** The arguments [self.queue.pq_id, self.queue.pq_id, self.queue.qsize()]. *)
Definition queue_args (w : World Q) : list LogArg :=
  [ArgStr (Some (pq_id (queue w))); ArgStr (Some (pq_id (queue w)));
   ArgInt (qsize (queue w))].

(** Lines 142-163: the Job with the item's hash, created when there is
    none.  [None] stands for the [return] of the [except] branch,
    [Some job_db] for falling through with that value of [job_db]
    (itself [None] when [create_job] returned [None]). *)
Definition find_or_create_job (p_item : PrioritizedItem) (h : string)
  : Eff (World Q) (option (option Job)) :=
  job_db <~ get_job_by_hash h ;;
  match job_db with
  | Some j => ret (Some (Some j))
  | None =>
      try_except
        (created_at <~ now_utc ;;
         modified_at <~ now_utc ;;
         new_id <~ new_uuid ;;
         w <~ get_world ;;
         job_db <~ create_job {| j_id := new_id;
                                 j_scheduler_id := scheduler_id w;
                                 j_hash := h;
                                 j_enabled := true;
                                 j_p_item := p_item;
                                 j_created_at := created_at;
                                 j_modified_at := modified_at |} ;;
         ret (Some job_db))
        (fun e =>
           w <~ get_world ;;
           log WARNING "Job %s could not be created [task_id=%s, queue_id=%s]: %s"
             (item_args p_item w ++ [ArgExn e]) ;;;
           ret None)
  end.

(** Lines 165-195: re-enable and persist the Job, then link the Task. *)
Definition link_task_to_job (p_item : PrioritizedItem) (task_db : Task)
  (job_db : option Job) : Eff (World Q) unit :=
  match job_db with
  | None => raise AttributeError
  | Some job_db =>
      let job_db := if negb (j_enabled job_db) then set_enabled true job_db
                    else job_db in
      updated <~ try_except
        (update_job job_db ;;; ret true)
        (fun e =>
           w <~ get_world ;;
           log WARNING "Job %s could not be updated [task_id=%s, queue_id=%s]: %s"
             [ArgStr (Some (j_id job_db)); ArgStr (p_data p_item !! "id");
              ArgStr (Some (pq_id (queue w))); ArgExn e] ;;;
           ret false) ;;
      if updated : bool then
        let task_db := set_job_id (Some (j_id job_db)) task_db in
        try_except
          (update_task task_db)
          (fun e =>
             w <~ get_world ;;
             log WARNING "Task %s could not be updated [task_id=%s, queue_id=%s]: %s"
               [ArgStr (Some (t_id task_db)); ArgStr (p_data p_item !! "id");
                ArgStr (Some (pq_id (queue w))); ArgExn e])
      else ret tt
  end.

(** [Scheduler.post_push] (lines 97-195). *)
Definition post_push (p_item : PrioritizedItem) : Eff (World Q) unit :=
  created_at <~ now_utc ;;
  modified_at <~ now_utc ;;
  w <~ get_world ;;
  let task := {| t_id := p_id p_item;
                 t_scheduler_id := scheduler_id w;
                 t_type := item_type (queue w);
                 t_p_item := p_item;
                 t_status := QUEUED;
                 t_job_id := None;
                 t_created_at := created_at;
                 t_modified_at := modified_at |} in
  match p_hash p_item with
  | None =>
      log WARNING "Task %s has no hash, not creating job [task_id=%s, queue_id=%s]"
        (item_args p_item w)
  | Some h =>
      task_db <~ get_task_by_id (p_id p_item) ;;
      match task_db with
      | Some _ => update_task task
      | None =>
          task_db <~ create_task task ;;
          match task_db with
          | None =>
              w <~ get_world ;;
              log WARNING
                "Task %s could not be created, not creating job [task_id=%s, queue_id=%s]"
                (item_args p_item w)
          | Some task_db =>
              job_db <~ find_or_create_job p_item h ;;
              match job_db with
              | None => ret tt
              | Some job_db => link_task_to_job p_item task_db job_db
              end
          end
      end
  end.

(** [Scheduler.post_pop] (lines 197-219). *)
Definition post_pop (p_item : PrioritizedItem) : Eff (World Q) unit :=
  task <~ get_task_by_id (p_id p_item) ;;
  match task with
  | None =>
      w <~ get_world ;;
      log WARNING
        "Task %s not found in datastore, not updating status [task_id=%s, queue_id=%s]"
        (item_args p_item w)
  | Some task => update_task (set_status DISPATCHED task)
  end.

(** [Scheduler.pop_item_from_queue] (lines 221-235). *)
Definition pop_item_from_queue (filters : option (list string))
  : Eff (World Q) (option PrioritizedItem) :=
  p_item <~ try_except (on_queue (pop filters)) (fun exc => raise exc) ;;
  match p_item with
  | Some p => post_pop p ;;; ret p_item
  | None => ret p_item
  end.

(** [Scheduler.push_item_to_queue] (lines 237-282). *)
Definition push_item_to_queue (p_item : PrioritizedItem) : Eff (World Q) unit :=
  try_except (on_queue (push p_item))
    (fun exc =>
       match exc with
       | NotAllowedError =>
           w <~ get_world ;;
           log WARNING "Not allowed to push to queue %s [queue_id=%s, qsize=%d]"
             (queue_args w) ;;;
           raise exc
       | QueueFullError =>
           w <~ get_world ;;
           log WARNING
             "Queue %s is full, not populating new tasks [queue_id=%s, qsize=%d]"
             (queue_args w) ;;;
           raise exc
       | InvalidPrioritizedItemError =>
           w <~ get_world ;;
           log WARNING "Invalid prioritized item %s [queue_id=%s, qsize=%d]"
             [ArgItem p_item; ArgStr (Some (pq_id (queue w)));
              ArgInt (qsize (queue w))] ;;;
           raise exc
       | _ => raise exc
       end) ;;;
  w <~ get_world ;;
  log DEBUG
    "Pushed item (%s) to queue %s with priority %s [p_item.id=%s, p_item.hash=%s, queue.pq_id=%s, queue.qsize=%d]"
    [ArgStr (Some (p_id p_item)); ArgStr (Some (pq_id (queue w)));
     ArgInt (p_priority p_item); ArgStr (Some (p_id p_item));
     ArgStr (p_hash p_item); ArgStr (Some (pq_id (queue w)));
     ArgInt (qsize (queue w))] ;;;
  post_push p_item.

(** The exceptions named by the first [except] clause of
    [push_items_to_queue] (lines 295-299). *)
Definition skipped_in_batch (e : Exn) : bool :=
  match e with
  | NotAllowedError | QueueFullError | InvalidPrioritizedItemError => true
  | _ => false
  end.

(** One turn of the [for] loop of [push_items_to_queue]: [true] when the
    item went through ([count += 1] is reached), [false] on [continue]. *)
Definition try_push_item (p_item : PrioritizedItem) : Eff (World Q) bool :=
  try_except
    (push_item_to_queue p_item ;;; ret true)
    (fun exc =>
       w <~ get_world ;;
       if skipped_in_batch exc then
         log DEBUG
           "Unable to push item to queue %s [queue_id=%s, qsize=%d, item=%s, exc=%s]"
           (queue_args w ++ [ArgItem p_item; ArgExn exc]) ;;;
         ret false
       else
         log ERROR "Unable to push item to queue %s [queue_id=%s, qsize=%d, item=%s]"
           (queue_args w ++ [ArgItem p_item]) ;;;
         raise exc).

(** The loop of [push_items_to_queue], returning the local [count]. *)
Fixpoint push_items_loop (count : Z) (p_items : list PrioritizedItem)
  : Eff (World Q) Z :=
  match p_items with
  | [] => ret count
  | p_item :: rest =>
      pushed <~ try_push_item p_item ;;
      push_items_loop (if pushed : bool then count + 1 else count) rest
  end.

(** [Scheduler.push_items_to_queue] (lines 284-319). *)
Definition push_items_to_queue (p_items : list PrioritizedItem)
  : Eff (World Q) unit :=
  push_items_loop 0 p_items ;;; ret tt.

(** [Scheduler.is_space_on_queue] (lines 399-407). *)
Definition is_space_on_queue : Eff (World Q) bool :=
  w <~ get_world ;;
  if (maxsize (queue w) - qsize (queue w) <=? 0)
     && negb (maxsize (queue w) =? 0)
  then ret false
  else ret true.

(** The [while] loop of [push_item_to_queue_with_timeout] (lines
    337-346), which need not terminate when [max_tries = -1]: [fuel]
    bounds the number of tests of the loop condition, and [None] says
    that the loop was still running when the fuel ran out.  The result is
    the value of [tries] on leaving the loop. *)
Fixpoint wait_for_space (fuel : nat) (max_tries timeout tries : Z)
  : Eff (World Q) (option Z) :=
  match fuel with
  | O => ret None
  | S fuel' =>
      space <~ is_space_on_queue ;;
      if negb space && ((tries <? max_tries) || (max_tries =? -1)) then
        w <~ get_world ;;
        log DEBUG "Queue %s is full, waiting for space [queue_id=%s, qsize=%d]"
          (queue_args w) ;;;
        sleep timeout ;;;
        wait_for_space fuel' max_tries timeout (tries + 1)
      else ret (Some tries)
  end.

(** [Scheduler.push_item_to_queue_with_timeout] (lines 321-351). *)
Definition push_item_to_queue_with_timeout (fuel : nat)
  (p_item : PrioritizedItem) (max_tries timeout : Z)
  : Eff (World Q) (option unit) :=
  left <~ wait_for_space fuel max_tries timeout 0 ;;
  match left with
  | None => ret None
  | Some tries =>
      if (tries >=? max_tries) && negb (max_tries =? -1)
      then raise QueueFullError
      else push_item_to_queue p_item ;;; ret (Some tt)
  end.

End Methods.

(** *** Vocabulary for the statements *)

Section Vocabulary.
Context {Q : Type} `{PriorityQueue Q}.

(** The row that [get_task_by_id] answers with. *)
Definition lookup_task (task_id : string) (w : World Q) : option Task :=
  find (fun r => bool_decide (t_id r = task_id)) (task_rows (store w)).

(** The number of Task rows stored under an id. *)
Definition task_count (task_id : string) (w : World Q) : nat :=
  length (filter (fun r => t_id r = task_id) (task_rows (store w))).

(** The scripted answer to the [n]-th coming store call. *)
Definition nth_fault (n : nat) (w : World Q) : StoreFault :=
  nth n (faults (store w)) NoFault.

(** The record that the constructor call of lines 106-114 builds in
    world [w]: the two clock readings are the next two. *)
Definition queued_task (p_item : PrioritizedItem) (w : World Q) : Task :=
  {| t_id := p_id p_item;
     t_scheduler_id := scheduler_id w;
     t_type := item_type (queue w);
     t_p_item := p_item;
     t_status := QUEUED;
     t_job_id := None;
     t_created_at := clock w (clock_reads w);
     t_modified_at := clock w (S (clock_reads w)) |}.

(** The record that [post_pop] is to persist for a stored [task]: the
    Task as it was stored, with status [DISPATCHED] (lines 216-217). *)
Definition dispatched_task (task : Task) : Task :=
  {| t_id := t_id task;
     t_scheduler_id := t_scheduler_id task;
     t_type := t_type task;
     t_p_item := t_p_item task;
     t_status := DISPATCHED;
     t_job_id := t_job_id task;
     t_created_at := t_created_at task;
     t_modified_at := t_modified_at task |}.

(** The row that [get_job_by_hash] answers with. *)
Definition lookup_job (h : string) (w : World Q) : option Job :=
  find (fun r => bool_decide (j_hash r = h)) (job_rows (store w)).

(** The record that the constructor call of lines 146-153 builds when
    [post_push] reaches it in a run started in world [w]: the clock has
    been read twice before, and the uuid is the next one. *)
Definition new_job (p_item : PrioritizedItem) (h : string) (w : World Q) : Job :=
  {| j_id := uuid4 w (uuids_drawn w);
     j_scheduler_id := scheduler_id w;
     j_hash := h;
     j_enabled := true;
     j_p_item := p_item;
     j_created_at := clock w (S (S (clock_reads w)));
     j_modified_at := clock w (S (S (S (clock_reads w)))) |}.

(** The Task rows stored under an id. *)
Definition tasks_of (task_id : string) (w : World Q) : list Task :=
  filter (fun r => t_id r = task_id) (task_rows (store w)).

(** The test of [is_space_on_queue] that answers [False]. *)
Definition queue_full (q : Q) : bool :=
  (maxsize q - qsize q <=? 0) && negb (maxsize q =? 0).

End Vocabulary.

(** *** A concrete queue *)

(** Modelled from the spec: a bounded priority queue with deduplication
    by hash and every replace/update flag off (section 4.1).  [push]
    rejects an item whose id is queued under another hash
    ([InvalidPrioritizedItemError]), then an item whose hash is queued
    ([NotAllowedError]), then an item that does not fit
    ([QueueFullError], [maxsize = 0] meaning unbounded); otherwise the
    item goes behind the queued items of at most its priority value.
    [pop] takes the first item, filters not being modelled. *)
Record ListQueue : Type := {
  lq_id : string;
  lq_item_type : string;
  lq_maxsize : Z;
  lq_items : list PrioritizedItem
}.

Definition lq_with_items (l : list PrioritizedItem) (q : ListQueue) : ListQueue :=
  {| lq_id := lq_id q; lq_item_type := lq_item_type q;
     lq_maxsize := lq_maxsize q; lq_items := l |}.

Fixpoint lq_insert (p : PrioritizedItem) (l : list PrioritizedItem)
  : list PrioritizedItem :=
  match l with
  | [] => [p]
  | x :: l' => if p_priority p <? p_priority x then p :: l
               else x :: lq_insert p l'
  end.

Definition lq_push (p : PrioritizedItem) : Eff ListQueue unit :=
  fun q =>
    if existsb (fun x => bool_decide (p_id x = p_id p)
                         && negb (bool_decide (p_hash x = p_hash p)))
         (lq_items q)
    then (Raised InvalidPrioritizedItemError, q)
    else if existsb (fun x => bool_decide (is_Some (p_hash p))
                              && bool_decide (p_hash x = p_hash p))
              (lq_items q)
    then (Raised NotAllowedError, q)
    else if negb (lq_maxsize q =? 0)
            && (lq_maxsize q <=? Z.of_nat (length (lq_items q)))
    then (Raised QueueFullError, q)
    else (Returned tt, lq_with_items (lq_insert p (lq_items q)) q).

Definition lq_pop (filters : option (list string))
  : Eff ListQueue (option PrioritizedItem) :=
  fun q =>
    match lq_items q with
    | [] => (Raised QueueEmptyError, q)
    | x :: l => (Returned (Some x), lq_with_items l q)
    end.

Global Instance ListQueue_pq : PriorityQueue ListQueue := {|
  pq_id := lq_id;
  item_type := lq_item_type;
  maxsize := lq_maxsize;
  qsize := fun q => Z.of_nat (length (lq_items q));
  push := lq_push;
  pop := lq_pop
|}.

(** *** Sample inputs *)

Definition sample_item : PrioritizedItem :=
  {| p_id := "0b1e6a0c"; p_hash := Some "9f2c"; p_priority := 2;
     p_data := {["id" := "dns-records"]} |}.

Definition other_item : PrioritizedItem :=
  {| p_id := "5c7d2e91"; p_hash := Some "41aa"; p_priority := 3;
     p_data := {["id" := "ssl-scan"]} |}.

Definition hashless_item : PrioritizedItem :=
  {| p_id := "77aa31f0"; p_hash := None; p_priority := 2;
     p_data := {["id" := "dns-records"]} |}.

(** A queue of the boefje scheduler of organisation [org-1]. *)
Definition queue_of (size : Z) (l : list PrioritizedItem) : ListQueue :=
  {| lq_id := "boefje-org-1"; lq_item_type := "boefje";
     lq_maxsize := size; lq_items := l |}.

(** A world with the given queue, rows and fault script, in which the
    other threads leave the queue alone. *)
Definition world_of (q : ListQueue) (ts : list Task) (js : list Job)
  (script : list StoreFault) : World ListQueue :=
  {| scheduler_id := "boefje-org-1";
     queue := q;
     store := {| task_rows := ts; job_rows := js; faults := script; calls := [] |};
     logs := [];
     clock := fun k => 1700000000000000 + Z.of_nat k;
     clock_reads := O;
     uuid4 := fun k => nth k ["6d1f03b2"; "a2c4e9d7"] "ffffffff";
     uuids_drawn := O;
     other_threads := fun _ q => q;
     slept := [] |}.

(** The Task that an earlier push of [sample_item] stored. *)
Definition stored_task : Task :=
  {| t_id := "0b1e6a0c"; t_scheduler_id := "boefje-org-1"; t_type := "boefje";
     t_p_item := sample_item; t_status := QUEUED; t_job_id := Some "6d1f03b2";
     t_created_at := 1699999990000000; t_modified_at := 1699999990000000 |}.

(** A world in which a consumer thread empties the queue during the
    first sleep of the caller. *)
Definition world_with_consumer (q : ListQueue) : World ListQueue :=
  {| scheduler_id := "boefje-org-1";
     queue := q;
     store := {| task_rows := []; job_rows := []; faults := []; calls := [] |};
     logs := [];
     clock := fun k => 1700000000000000 + Z.of_nat k;
     clock_reads := O;
     uuid4 := fun k => nth k ["6d1f03b2"; "a2c4e9d7"] "ffffffff";
     uuids_drawn := O;
     other_threads := fun k q => match k with
                                 | O => lq_with_items [] q
                                 | S _ => q
                                 end;
     slept := [] |}.

(** A disabled Job stored under the hash of [sample_item]. *)
Definition stored_job : Job :=
  {| j_id := "6d1f03b2"; j_scheduler_id := "boefje-org-1"; j_hash := "9f2c";
     j_enabled := false; j_p_item := sample_item;
     j_created_at := 1699999990000000; j_modified_at := 1699999990000000 |}.

End Scheduler.

(** ** connectors/services/octopoes.py *)

Module Octopoes.

(** The values stored in the [params] dict. *)
Inductive ParamValue : Type :=
  | PList (l : list string)
  | PSet (s : gset Z)
  | PInt (z : Z).

(** One [self.get(url, params=params)]: the URL and the contents of the
    dict at the time of the call. *)
Record Request : Type := {
  url : string;
  params : gmap string ParamValue
}.

(** [response.json()], read through [.get("count")] and [.get("items")]. *)
Record Response (Raw : Type) : Type := {
  count : option Z;
  items : option (list Raw)
}.
Arguments count {Raw} _.
Arguments items {Raw} _.

(** The service object: its host, the HTTP transport behind
    [HTTPService.get] (whose answer may depend on the requests already
    sent) and the [OOI] constructor, which validates its input. *)
Record Service (Raw OOI : Type) : Type := {
  host : string;
  transport : list Request -> Request -> Outcome (Response Raw);
  make_OOI : Raw -> Outcome OOI
}.
Arguments host {Raw OOI} _.
Arguments transport {Raw OOI} _ _ _.
Arguments make_OOI {Raw OOI} _ _.

(** The requests sent so far and the failures logged by the decorator. *)
Record Net : Type := {
  sent : list Request;
  logged : list Exn
}.

Section Methods.
Context {Raw OOI : Type} (self : Service Raw OOI).

(** [self.get(url, params=params)] *)
Definition get (u : string) (p : gmap string ParamValue)
  : Eff Net (Response Raw) :=
  fun n =>
    let r := {| url := u; params := p |} in
    (transport self (sent n) r, {| sent := sent n ++ [r]; logged := logged n |}).

(** Modelled from the spec: the [exception_handler] decorator of
    [scheduler.connectors.errors], which logs a failure of the call and
    raises one normalised error in its place (section 7). *)
Definition exception_handler {A} (c : Eff Net A) : Eff Net A :=
  try_except c
    (fun e =>
       modify (fun n => {| sent := sent n; logged := logged n ++ [e] |}) ;;;
       raise ExternalServiceError).

(** Python's [range(start, stop, step)] for a positive [step]. *)
Definition range (start stop step : Z) : list Z :=
  map (fun k => start + Z.of_nat k * step)
      (seq 0 (Z.to_nat ((stop - start + step - 1) / step))).

(** Line 47: the comprehension that builds an [OOI] from each item. *)
Fixpoint make_all (l : list Raw) : Outcome (list OOI) :=
  match l with
  | [] => Returned []
  | x :: l' =>
      match make_OOI self x with
      | Raised e => Raised e
      | Returned o =>
          match make_all l' with
          | Raised e => Raised e
          | Returned os => Returned (o :: os)
          end
      end
  end.

(** The loop of lines 44-47 over the offsets still to visit; [p] is the
    [params] dict, updated in place, and [oois] the list being extended. *)
Fixpoint fetch_pages (u : string) (offsets : list Z)
  (p : gmap string ParamValue) (oois : list OOI) : Eff Net (list OOI) :=
  match offsets with
  | [] => ret oois
  | offset :: rest =>
      let p := <["offset" := PInt offset]> p in
      response <~ get u p ;;
      page <~ lift (make_all (default [] (items response))) ;;
      fetch_pages u rest p (oois ++ page)
  end.

(** The body of [Octopoes.get_objects_by_object_types] (lines 22-49). *)
Definition get_objects_by_object_types_body (organisation_id : string)
  (object_types : list string) (scan_level : option (list Z))
  : Eff Net (list OOI) :=
  let scan_level := default [] scan_level in
  let u := host self +:+ "/" +:+ organisation_id +:+ "/objects" in
  let p : gmap string ParamValue :=
    <["limit" := PInt 1]> (<["offset" := PInt 0]>
      (<["scan_level" := PSet (list_to_set scan_level)]>
        (<["types" := PList object_types]> ∅))) in
  response <~ get u p ;;
  let limit := 1000 in
  let p := <["limit" := PInt limit]> p in
  match count response with
  | None => raise TypeError
  | Some c => fetch_pages u (range 0 c limit) p []
  end.

(** [Octopoes.get_objects_by_object_types], decorated (lines 17-49). *)
Definition get_objects_by_object_types (organisation_id : string)
  (object_types : list string) (scan_level : option (list Z))
  : Eff Net (list OOI) :=
  exception_handler
    (get_objects_by_object_types_body organisation_id object_types scan_level).

End Methods.

(** *** Health *)

(** [models.Organisation], of which the connector reads [id]. *)
Record Organisation : Type := {
  org_id : string
}.

(** The class attribute of line 11. *)
Definition health_endpoint : option string := None.

(** An optional string interpolated in an f-string. *)
Definition interpolated (o : option string) : string :=
  match o with
  | Some s => s
  | None => "None"
  end.

(** The path probed for an organisation (line 108). *)
Definition health_path (org : Organisation) : string :=
  "/" +:+ org_id org +:+ interpolated health_endpoint.

(** The loop of [Octopoes.is_healthy] (lines 105-111).  The probe
    [HTTPService.is_host_healthy] is a parameter; its answer may depend
    on the probes made before, which the state records as pairs of host
    and path. *)
Fixpoint is_healthy
  (is_host_healthy : list (string * string) -> string -> string -> Outcome bool)
  (self_host : string) (orgs : list Organisation)
  : Eff (list (string * string)) bool :=
  match orgs with
  | [] => ret true
  | org :: rest =>
      ok <~ (fun probes =>
               (is_host_healthy probes self_host (health_path org),
                probes ++ [(self_host, health_path org)])) ;;
      if negb ok then ret false
      else is_healthy is_host_healthy self_host rest
  end.

(** *** Vocabulary for the statements *)

Section Vocabulary.
Context {Raw OOI : Type} (self : Service Raw OOI).

(** The request of line 35: offset 0, limit 1. *)
Definition count_request (organisation_id : string)
  (object_types : list string) (scan_level : option (list Z)) : Request :=
  {| url := host self +:+ "/" +:+ organisation_id +:+ "/objects";
     params := <["types" := PList object_types]>
                 (<["scan_level" := PSet (list_to_set (default [] scan_level))]>
                   (<["offset" := PInt 0]> (<["limit" := PInt 1]> ∅))) |}.

(** The request for page [k]: offset [1000 * k], limit 1000. *)
Definition page_request (organisation_id : string)
  (object_types : list string) (scan_level : option (list Z)) (k : nat)
  : Request :=
  {| url := host self +:+ "/" +:+ organisation_id +:+ "/objects";
     params := <["types" := PList object_types]>
                 (<["scan_level" := PSet (list_to_set (default [] scan_level))]>
                   (<["offset" := PInt (1000 * Z.of_nat k)]>
                     (<["limit" := PInt 1000]> ∅))) |}.

(** The number of pages for a total of [c] objects. *)
Definition page_count (c : Z) : nat := Z.to_nat ((c + 999) / 1000).

End Vocabulary.

(** *** Sample inputs *)

Definition param_int (p : gmap string ParamValue) (key : string) : Z :=
  match p !! key with
  | Some (PInt z) => z
  | _ => 0
  end.

(** A server that holds the objects [objs] and serves the slice that
    [offset] and [limit] ask for, with the total as [count]. *)
Definition paging_server (objs : list Z) : Service Z Z :=
  {| host := "http://octopoes:80";
     transport := fun _ r =>
       Returned {| count := Some (Z.of_nat (length objs));
                   items := Some (take (Z.to_nat (param_int (params r) "limit"))
                                    (drop (Z.to_nat (param_int (params r) "offset"))
                                       objs)) |};
     make_OOI := fun raw => Returned raw |}.

Definition numbered (n : Z) : list Z := map Z.of_nat (seq 0 (Z.to_nat n)).

Definition idle : Net := {| sent := []; logged := [] |}.

(** A server whose answers carry no [count]. *)
Definition countless_server : Service Z Z :=
  {| host := "http://octopoes:80";
     transport := fun _ r => Returned {| count := None; items := Some [] |};
     make_OOI := fun raw => Returned raw |}.

(** [paging_server], except that the request for the page at offset
    [bad_offset] fails. *)
Definition flaky_server (objs : list Z) (bad_offset : Z) : Service Z Z :=
  {| host := "http://octopoes:80";
     transport := fun sent r =>
       if (param_int (params r) "limit" =? 1000)
          && (param_int (params r) "offset" =? bad_offset)
       then Raised HTTPError
       else transport (paging_server objs) sent r;
     make_OOI := fun raw => Returned raw |}.


(** A probe that finds every organisation healthy but [down]. *)
Definition probe_but (down : string)
  : list (string * string) -> string -> string -> Outcome bool :=
  fun _ _ path => Returned (negb (String.eqb path ("/" +:+ down +:+ "None"))).

End Octopoes.

(** ** rocky/scheduler.py *)

Module Rocky.

(** *** Exceptions *)

(** The classes deriving from [SchedulerError], itself included. *)
Inductive SchedulerErrorClass : Type :=
  | SchedulerError
  | TooManyRequestsError
  | BadRequestError
  | ConflictError
  | TaskNotFoundError.

(** The exceptions of this module: an instance of [SchedulerError] or of
    one of its subclasses; of [requests], the two exceptions named in the
    [except] clauses and [RequestException] for the others (a read
    timeout, too many redirects); Django's [Http404]; and the Python and
    pydantic errors that the code can run into.  An [HTTPError] is raised
    by [raise_for_status] and carries the status code of its response. *)
Inductive Error : Type :=
  | Scheduler (c : SchedulerErrorClass)
  | ConnectionError
  | RequestException
  | HTTPError (response_status_code : Z)
  | Http404
  | TypeError
  | AttributeError
  | ValidationError.

Inductive Result (A : Type) : Type :=
  | Ok (a : A)
  | Raise (e : Error).
Arguments Ok {A} a.
Arguments Raise {A} e.

Definition Act (S A : Type) : Type := S -> Result A * S.

Definition done {S A} (a : A) : Act S A := fun s => (Ok a, s).

Definition throw {S A} (e : Error) : Act S A := fun s => (Raise e, s).

Definition and_then {S A B} (c : Act S A) (k : A -> Act S B) : Act S B :=
  fun s =>
    match c s with
    | (Ok a, s') => k a s'
    | (Raise e, s') => (Raise e, s')
    end.

(** [try: c  except <classes accepted by handles>: h e] *)
Definition catching {S A} (handles : Error -> bool) (c : Act S A)
  (h : Error -> Act S A) : Act S A :=
  fun s =>
    match c s with
    | (Ok a, s') => (Ok a, s')
    | (Raise e, s') => if handles e then h e s' else (Raise e, s')
    end.

Definition is_ConnectionError (e : Error) : bool :=
  match e with ConnectionError => true | _ => false end.

Definition is_HTTPError (e : Error) : bool :=
  match e with HTTPError _ => true | _ => false end.

Definition is_SchedulerError (e : Error) : bool :=
  match e with Scheduler _ => true | _ => false end.

(** [except (BadRequestError, TooManyRequestsError, ConflictError)] *)
Definition is_task_error (e : Error) : bool :=
  match e with
  | Scheduler BadRequestError | Scheduler TooManyRequestsError
  | Scheduler ConflictError => true
  | _ => false
  end.

(** *** Messages *)

(** Message texts, kept as the expressions that build them: a
    translatable literal, a [format] call and a concatenation. *)
Inductive Arg : Type :=
  | Title (s : string)
  | Plain (s : option string).

Inductive Text : Type :=
  | Translatable (msgid : string)
  | Format (template : Text) (args : list Arg)
  | Concat (a b : Text).

(** The class attribute [message]. *)
Definition message (c : SchedulerErrorClass) : Text :=
  match c with
  | SchedulerError => Translatable "Connectivity issues with Mula."
  | TooManyRequestsError =>
      Translatable "Task queue is full, please try again later."
  | BadRequestError => Translatable "Task is invalid."
  | ConflictError => Translatable "Task already queued."
  | TaskNotFoundError => Translatable "Task could not be found."
  end.

Inductive Level : Type := ERROR | SUCCESS.

(** *** Data model *)

Record Boefje : Type := {
  boefje_id : string;
  boefje_name : option string;
  boefje_version : option string
}.

Record Normalizer : Type := {
  normalizer_id : option string;
  normalizer_name : option string;
  normalizer_version : option string
}.

(** [BoefjeTask]; [bt_type] is the field [type], "boefje" by default. *)
Record BoefjeTask : Type := {
  bt_id : string;
  bt_boefje : Boefje;
  bt_input_ooi : option string;
  bt_organization : string;
  bt_type : string
}.

(** [NormalizerTask]; of [raw_data] the code reads
    [raw_data.boefje_meta.input_ooi]. *)
Record NormalizerTask : Type := {
  nt_id : string;
  nt_normalizer : Normalizer;
  nt_raw_data_boefje_meta_input_ooi : option string;
  nt_type : string
}.

(** [Union[BoefjeTask, NormalizerTask]] *)
Inductive TaskData : Type :=
  | OfBoefje (t : BoefjeTask)
  | OfNormalizer (t : NormalizerTask).

Record QueuePrioritizedItem : Type := {
  qp_id : string;
  qp_priority : Z;
  qp_hash : option string;
  qp_data : TaskData
}.

Definition data_type (d : TaskData) : string :=
  match d with
  | OfBoefje t => bt_type t
  | OfNormalizer t => nt_type t
  end.

(** *** HTTP *)

(** The query of a [/tasks] request: the keyword arguments in the order
    given. *)
Inductive QueryValue : Type :=
  | QInt (z : Z)
  | QStr (s : option string).

Inductive Request : Type :=
  | GET (url : string) (params : list (string * QueryValue))
  | POST (url : string) (data : string).

Record Response : Type := {
  status_code : Z;
  content : string
}.

(** [PaginatedTasksResponse], over the type of the parsed tasks. *)
Record Page (T : Type) : Type := {
  count : Z;
  results : list T
}.
Arguments count {T} _.
Arguments results {T} _.

(** What a request to the session comes to: a response, a
    [ConnectionError], or another exception of [requests]. *)
Inductive Answer : Type :=
  | Answered (r : Response)
  | ConnectionFailed
  | RequestFailed.

(** What surrounds the module: the configured base URI, the HTTP
    session (whose answer may depend on the requests made before), the
    pydantic parsers ([None] where [parse_raw] raises [ValidationError])
    and the JSON encoder of an item. *)
Record Env (T : Type) : Type := {
  SCHEDULER_API : string;
  session : list Request -> Request -> Answer;
  parse_health : string -> option unit;
  parse_task : string -> option T;
  parse_page : string -> option (Page T);
  to_json : QueuePrioritizedItem -> string
}.
Arguments SCHEDULER_API {T} _.
Arguments session {T} _ _ _.
Arguments parse_health {T} _ _.
Arguments parse_task {T} _ _.
Arguments parse_page {T} _ _.
Arguments to_json {T} _ _.

(** The state of a view call: the requests sent and the messages added
    to the Django request. *)
Record Web : Type := {
  sent : list Request;
  messages : list (Level * Text)
}.

Section Client.
Context {T : Type} (env : Env T).

Definition send (r : Request) : Act Web Response :=
  fun s => (match session env (sent s) r with
            | Answered res => Ok res
            | ConnectionFailed => Raise ConnectionError
            | RequestFailed => Raise RequestException
            end,
            {| sent := sent s ++ [r]; messages := messages s |}).

Definition add_message (lv : Level) (t : Text) : Act Web unit :=
  fun s => (Ok tt, {| sent := sent s; messages := messages s ++ [(lv, t)] |}).

Definition pure {A} (r : Result A) : Act Web A := fun s => (r, s).

(** [Model.parse_raw] *)
Definition parse_raw {A} (parsed : option A) : Act Web A :=
  fun s => (match parsed with
            | Some a => Ok a
            | None => Raise ValidationError
            end, s).

(** [Response.raise_for_status] *)
Definition raise_for_status (r : Response) : Act Web unit :=
  if (400 <=? status_code r) && (status_code r <? 600)
  then throw (HTTPError (status_code r))
  else done tt.

(** [SchedulerClient.list_tasks] (lines 196-204); the [text] and the
    [content] of a response are not told apart. *)
Definition list_tasks (kwargs : list (string * QueryValue))
  : Act Web (Page T) :=
  catching is_ConnectionError
    (and_then (send (GET (SCHEDULER_API env +:+ "/tasks") kwargs)) (fun res =>
     parse_raw (parse_page env (content res))))
    (fun _ => throw (Scheduler SchedulerError)).

(** An optional value interpolated in an f-string. *)
Definition fstr (o : option string) : string :=
  match o with
  | Some s => s
  | None => "None"
  end.

(** [SchedulerClient.get_task_details] (lines 232-240) *)
Definition get_task_details (task_id : option string) : Act Web T :=
  catching is_ConnectionError
    (catching is_HTTPError
       (and_then (send (GET (SCHEDULER_API env +:+ "/tasks/" +:+ fstr task_id)
                          [])) (fun res =>
        and_then (raise_for_status res) (fun _ =>
        parse_raw (parse_task env (content res)))))
       (fun _ => throw Http404))
    (fun _ => throw (Scheduler SchedulerError)).

(** The status dispatch of [push_task] (lines 247-255). *)
Definition error_of_status (code : Z) : SchedulerErrorClass :=
  if code =? 429 then TooManyRequestsError
  else if code =? 400 then BadRequestError
  else if code =? 409 then ConflictError
  else SchedulerError.

(** [SchedulerClient.push_task] (lines 242-255) *)
Definition push_task (queue_name : string)
  (prioritized_item : QueuePrioritizedItem) : Act Web unit :=
  catching is_HTTPError
    (and_then (send (POST (SCHEDULER_API env +:+ "/queues/" +:+ queue_name
                           +:+ "/push")
                       (to_json env prioritized_item))) (fun res =>
     raise_for_status res))
    (fun http_error =>
       match http_error with
       | HTTPError code => throw (Scheduler (error_of_status code))
       | e => throw e
       end).

(** [SchedulerClient.health] (lines 257-263) *)
Definition health : Act Web unit :=
  catching is_ConnectionError
    (and_then (send (GET (SCHEDULER_API env +:+ "/health") [])) (fun res =>
     and_then (raise_for_status res) (fun _ =>
     parse_raw (parse_health env (content res)))))
    (fun _ => throw (Scheduler SchedulerError)).

(** [get_scheduler_client] (lines 266-272); the client it returns is
    determined by the environment. *)
Definition get_scheduler_client : Act Web unit :=
  catching is_ConnectionError
    health
    (fun _ => throw (Scheduler SchedulerError)).

(** The two [if] statements of [schedule_task] (lines 276-283): the
    plugin name and the input object named in the message. *)
Definition describe (d : TaskData)
  : Result (option string * option string) :=
  match
    (if String.eqb (data_type d) "boefje" then
       match d with
       | OfBoefje t => Ok (boefje_name (bt_boefje t), bt_input_ooi t)
       | OfNormalizer _ => Raise AttributeError
       end
     else Ok (Some EmptyString, Some EmptyString))
  with
  | Raise e => Raise e
  | Ok named =>
      if String.eqb (data_type d) "normalizer" then
        match d with
        | OfNormalizer t =>
            Ok (normalizer_id (nt_normalizer t),
                nt_raw_data_boefje_meta_input_ooi t)
        | OfBoefje _ => Raise AttributeError
        end
      else Ok named
  end.

(** [schedule_task] (lines 275-301) *)
Definition schedule_task (organization_code : string)
  (task : QueuePrioritizedItem) : Act Web unit :=
  and_then (pure (describe (qp_data task))) (fun '(plugin_name, input_ooi) =>
  let called :=
    and_then get_scheduler_client (fun _ =>
    push_task (data_type (qp_data task) +:+ "-" +:+ organization_code) task) in
  fun s =>
    match called s with
    | (Raise (Scheduler c), s') =>
        if is_task_error (Scheduler c) then
          add_message ERROR
            (Concat (message c)
               (Format
                  (Translatable " Scheduling {} {} with input object {} failed.")
                  [Title (data_type (qp_data task)); Plain plugin_name;
                   Plain input_ooi])) s'
        else add_message ERROR (message c) s'
    | (Raise e, s') => (Raise e, s')
    | (Ok _, s') =>
        add_message SUCCESS
          (Format
             (Translatable
                "Task '{} {} with input object {}' is scheduled and will soon be started in the background. Results will be added to the object list when they are in. It may take some time, a refresh of the page may be needed to show the results.")
             [Title (data_type (qp_data task)); Plain plugin_name;
              Plain input_ooi]) s'
    end).

(** [get_details_of_task] (lines 312-316); [None] is the value that
    falls out of the [except] branch. *)
Definition get_details_of_task (task_id : option string)
  : Act Web (option T) :=
  catching is_SchedulerError
    (and_then get_scheduler_client (fun _ =>
     and_then (get_task_details task_id) (fun t => done (Some t))))
    (fun error =>
       match error with
       | Scheduler c => and_then (add_message ERROR (message c))
                          (fun _ => done None)
       | e => throw e
       end).

(** *** LazyTaskList *)

(** The object: its keyword arguments and the cached [_count]. *)
Record LazyTaskList : Type := {
  kwargs : list (string * QueryValue);
  _count : option Z
}.

(** [get_list_of_tasks_lazy] returns a [LazyTaskList] or the empty
    list. *)
Inductive TaskListing : Type :=
  | Lazy (l : LazyTaskList)
  | EmptyList.

(** [SchedulerClient.get_lazy_task_list] (lines 206-230); it sends
    nothing. *)
Definition get_lazy_task_list (scheduler_id : string)
  (task_type status min_created_at max_created_at input_ooi plugin_id
     boefje_name : option string) : LazyTaskList :=
  {| kwargs := [("scheduler_id", QStr (Some scheduler_id));
                ("type", QStr task_type);
                ("status", QStr status);
                ("min_created_at", QStr min_created_at);
                ("max_created_at", QStr max_created_at);
                ("input_ooi", QStr input_ooi);
                ("plugin_id", QStr plugin_id);
                ("boefje_name", QStr boefje_name)];
     _count := None |}.

(** [get_list_of_tasks_lazy] (lines 304-309) *)
Definition get_list_of_tasks_lazy (scheduler_id : string)
  (task_type status min_created_at max_created_at input_ooi plugin_id
     boefje_name : option string) : Act Web TaskListing :=
  catching is_SchedulerError
    (and_then get_scheduler_client (fun _ =>
     done (Lazy (get_lazy_task_list scheduler_id task_type status
                   min_created_at max_created_at input_ooi plugin_id
                   boefje_name))))
    (fun error =>
       match error with
       | Scheduler c => and_then (add_message ERROR (message c))
                          (fun _ => done EmptyList)
       | e => throw e
       end).

(** The subscript of [__getitem__]: a slice, an integer, or anything
    else. *)
Inductive Key : Type :=
  | Slice (start stop step : option Z)
  | Index (i : Z)
  | OtherKey.

(** A call [f(name=..., **kwargs)] raises [TypeError] when [kwargs]
    holds [name] as well. *)
Definition has_key (name : string) (kw : list (string * QueryValue)) : bool :=
  existsb (fun p => String.eqb (fst p) name) kw.

(** The [count] property (lines 136-143): the value and the object
    after the access. *)
Definition count_of (l : LazyTaskList) : Act Web (Z * LazyTaskList) :=
  match _count l with
  | Some c => done (c, l)
  | None =>
      if has_key "limit" (kwargs l) then throw TypeError else
      and_then (list_tasks (("limit", QInt 0) :: kwargs l)) (fun res =>
      done (count res, {| kwargs := kwargs l; _count := Some (count res) |}))
  end.

(** [__getitem__] (lines 148-165): the results and the object after the
    call. *)
Definition getitem (l : LazyTaskList) (key : Key)
  : Act Web (list T * LazyTaskList) :=
  let window :=
    match key with
    | Slice start stop _ =>
        let offset := match start with
                      | Some z => if z =? 0 then 0 else z
                      | None => 0
                      end in
        match stop with
        | Some z => Ok (offset, z - offset)
        | None => Raise TypeError
        end
    | Index i => Ok (i, 1)
    | OtherKey => Raise TypeError
    end in
  and_then (pure window) (fun '(offset, limit) =>
  if has_key "limit" (kwargs l) || has_key "offset" (kwargs l)
  then throw TypeError else
  and_then (list_tasks (("limit", QInt limit) :: ("offset", QInt offset)
                        :: kwargs l)) (fun res =>
  done (results res, {| kwargs := kwargs l; _count := Some (count res) |}))).

End Client.

(** *** Vocabulary for the statements *)

Section Vocabulary.
Context {T : Type} (env : Env T).

Definition health_request : Request :=
  GET (SCHEDULER_API env +:+ "/health") [].

Definition push_request (queue_name : string) (item : QueuePrioritizedItem)
  : Request :=
  POST (SCHEDULER_API env +:+ "/queues/" +:+ queue_name +:+ "/push")
    (to_json env item).

(** The request for the details of a task: the id follows [/tasks/],
    and a [task_id] of [None] is sent as the text [None]. *)
Definition task_request (task_id : option string) : Request :=
  GET (SCHEDULER_API env +:+ "/tasks/"
       +:+ match task_id with
           | Some id => id
           | None => "None"
           end) [].

Definition tasks_request (params : list (string * QueryValue)) : Request :=
  GET (SCHEDULER_API env +:+ "/tasks") params.

(** The statuses on which [raise_for_status] raises. *)
Definition is_error_status (code : Z) : bool :=
  (400 <=? code) && (code <? 600).

(** The health request is answered with a good status and a body that
    parses. *)
Definition health_served (s : Web) : Prop :=
  exists res,
    session env (sent s) health_request = Answered res /\
    is_error_status (status_code res) = false /\
    parse_health env (content res) = Some tt.

Definition with_sent (r : list Request) (s : Web) : Web :=
  {| sent := sent s ++ r; messages := messages s |}.

Definition with_message (lv : Level) (t : Text) (s : Web) : Web :=
  {| sent := sent s; messages := messages s ++ [(lv, t)] |}.

(** The two texts of [schedule_task]. *)
Definition scheduled_text (task : QueuePrioritizedItem)
  (plugin_name input_ooi : option string) : Text :=
  Format
    (Translatable
       "Task '{} {} with input object {}' is scheduled and will soon be started in the background. Results will be added to the object list when they are in. It may take some time, a refresh of the page may be needed to show the results.")
    [Title (data_type (qp_data task)); Plain plugin_name; Plain input_ooi].

Definition failed_text (c : SchedulerErrorClass) (task : QueuePrioritizedItem)
  (plugin_name input_ooi : option string) : Text :=
  Concat (message c)
    (Format (Translatable " Scheduling {} {} with input object {} failed.")
       [Title (data_type (qp_data task)); Plain plugin_name; Plain input_ooi]).

End Vocabulary.

(** *** Sample inputs *)

Definition boefje_item : QueuePrioritizedItem :=
  {| qp_id := "0b1e6a0c"; qp_priority := 1; qp_hash := Some "9f2c";
     qp_data :=
       OfBoefje
         {| bt_id := "c3d1a7e2";
            bt_boefje := {| boefje_id := "dns-records";
                            boefje_name := Some "DnsRecords";
                            boefje_version := None |};
            bt_input_ooi := Some "Hostname|internet|example.com";
            bt_organization := "org-1";
            bt_type := "boefje" |} |}.

(** An environment whose session answers by the request alone; a health
    body parses when it reads [healthy], a task is its body, and a page
    holds its body as the one of 42 tasks. *)
Definition scripted (answers : Request -> Answer) : Env string :=
  {| SCHEDULER_API := "http://mula:8000";
     session := fun _ r => answers r;
     parse_health := fun body =>
       if String.eqb body "healthy" then Some tt else None;
     parse_task := fun body => Some body;
     parse_page := fun body => Some {| count := 42; results := [body] |};
     to_json := fun item => qp_id item |}.

(** A healthy scheduler that answers every other request with [code]. *)
Definition answering (code : Z) (r : Request) : Answer :=
  match r with
  | GET "http://mula:8000/health" _ =>
      Answered {| status_code := 200; content := "healthy" |}
  | _ => Answered {| status_code := code; content := "task-1" |}
  end.

(** A scheduler whose health endpoint answers with [code]. *)
Definition unhealthy (code : Z) (r : Request) : Answer :=
  Answered {| status_code := code; content := "unavailable" |}.

Definition fresh : Web := {| sent := []; messages := [] |}.

(** The list that the task overview of [org-1] asks for. *)
Definition boefje_tasks : LazyTaskList :=
  get_lazy_task_list "boefje-org-1" (Some "boefje") None None None None None
    None.

End Rocky.

(** * Properties *)

(** ** The ranker *)

Section RankerFacts.
Import Timedelta BoefjeRanker.

Lemma of_microseconds_seconds us td :
  of_microseconds us = Returned td -> 0 <= seconds td < 86400.
Proof.
  unfold of_microseconds.
  destruct (Z.abs _ >? MAX_DELTA_DAYS); [discriminate|].
  intros [= <-]; cbn [seconds].
  unfold US_PER_DAY, US_PER_SECOND.
  pose proof (Z.mod_pos_bound us (86400 * 1000000) ltac:(lia)) as Hr.
  split.
  - apply Z.div_pos; lia.
  - apply Z.div_lt_upper_bound; lia.
Qed.

Lemma all_from_spec n p :
  forall lo, all_from n lo p = true ->
  forall t, lo <= t < lo + Z.of_nat n -> p t = true.
Proof.
  induction n as [|n IH]; simpl; intros lo Hall t Ht; [lia|].
  apply andb_prop in Hall as [Hlo Hrest].
  destruct (Z.eq_dec t lo) as [->|Hne]; [exact Hlo|].
  apply (IH (Z.succ lo)); [exact Hrest|lia].
Qed.

Lemma interpolate_checks_all :
  all_from (Z.to_nat 86400) 0 interpolate_checks = true.
Proof. vm_compute. reflexivity. Qed.

(** On the whole range of [timedelta.seconds] the double-precision
    computation of line 64 agrees with the exact one. *)
Lemma interpolate_exact t :
  0 <= t < 86400 ->
  interpolate MAX_PRIORITY t (MAX_DAYS * (60 * 60 * 24))
  = Returned (3 + 997 * (604800 - t) / 604800).
Proof.
  intros Ht.
  pose proof (all_from_spec _ _ _ interpolate_checks_all t ltac:(lia)) as Hc.
  unfold interpolate_checks in Hc.
  destruct (interpolate _ _ _) as [v|]; [|discriminate].
  apply andb_prop in Hc as [Hlo Hhi].
  apply Z.leb_le in Hlo. apply Z.ltb_lt in Hhi.
  f_equal.
  assert (v - 3 = 997 * (604800 - t) / 604800) as <-; [|lia].
  apply Z.div_unique with (r := 997 * (604800 - t) - 604800 * (v - 3)); lia.
Qed.

Lemma interpolate_range t v :
  0 <= t < 86400 ->
  interpolate MAX_PRIORITY t (MAX_DAYS * (60 * 60 * 24)) = Returned v ->
  857 <= v <= 1000.
Proof.
  intros Ht Hv. rewrite (interpolate_exact t Ht) in Hv.
  injection Hv as <-.
  assert (854 <= 997 * (604800 - t) / 604800).
  { apply Z.div_le_lower_bound; lia. }
  assert (997 * (604800 - t) / 604800 <= 997).
  { apply Z.div_le_upper_bound; lia. }
  lia.
Qed.

(** Whatever the store and the object graph answer and whatever the
    clock shows, a task with a prior execution is ranked between 857 and
    1000 whenever [rank] returns: the two early exits of lines 38-42 are
    never taken, because [timedelta.seconds] lies in [0, 86400). *)
Lemma rank_with_history_range ctx task last rest log v log' :
  get_tasks_by_hash ctx (hash task) = Returned (Some (last :: rest)) ->
  rank ctx task log = (Returned v, log') ->
  857 <= v <= 1000.
Proof.
  intros Hhist. unfold rank, bind, lift. rewrite Hhist.
  destruct (of_seconds _) as [grace|]; [|discriminate].
  destruct (datetime_sub _ _) as [since_last|]; [|discriminate].
  destruct (sub since_last grace) as [since_grace|] eqn:Hsub; [|discriminate].
  pose proof (of_microseconds_seconds _ _ Hsub) as Hsec.
  destruct (seconds since_grace <? 0) eqn:Hneg; [apply Z.ltb_lt in Hneg; lia|].
  destruct (seconds since_grace >=? MAX_DAYS * (60 * 60 * 24)) eqn:Hmax.
  { apply Z.geb_le in Hmax. unfold MAX_DAYS in Hmax. lia. }
  destruct (for_each _ _ log) as [[[]|] log1]; [|discriminate].
  intros [= Hv _]. eapply interpolate_range; eauto.
Qed.

Lemma rank_never_not_due ctx task log :
  fst (rank ctx task log) <> Returned (-1).
Proof.
  destruct (rank ctx task log) as [[v|e] log'] eqn:Hr; cbn; [|discriminate].
  intros [= ->].
  destruct (get_tasks_by_hash ctx (hash task)) as [[[|last rest]|]|] eqn:Hh.
  - revert Hr. unfold rank, bind, lift. rewrite Hh.
    destruct (of_seconds _); unfold ret; congruence.
  - pose proof (rank_with_history_range _ _ _ _ _ _ _ Hh Hr). lia.
  - revert Hr. unfold rank, bind, lift. rewrite Hh.
    destruct (of_seconds _); unfold ret; congruence.
  - revert Hr. unfold rank, bind, lift. rewrite Hh.
    destruct (of_seconds _); congruence.
Qed.

End RankerFacts.

(** C1 (the code departs from the claim).  Ten seconds after the last
    execution, with a grace period of one day, the task is still inside
    the grace window (first conjunct) and the claim asks for [-1];
    [rank] returns 999.  The difference of line 37 is [-1 day, 10 s] and
    its [seconds] field is 10. *)
Theorem rank_inside_grace_window :
  BoefjeRanker.utcnow
    (BoefjeRanker.quiet_ctx 86400
       (BoefjeRanker.sample_instant + 10 * Timedelta.US_PER_SECOND)
       [BoefjeRanker.ran_at BoefjeRanker.sample_instant])
  - BoefjeRanker.modified_at (BoefjeRanker.ran_at BoefjeRanker.sample_instant)
  < 86400 * Timedelta.US_PER_SECOND
  /\ fst (BoefjeRanker.rank
            (BoefjeRanker.quiet_ctx 86400
               (BoefjeRanker.sample_instant + 10 * Timedelta.US_PER_SECOND)
               [BoefjeRanker.ran_at BoefjeRanker.sample_instant])
            BoefjeRanker.sample_task [])
     = Returned 999.
Proof. split; [reflexivity|vm_compute; reflexivity]. Qed.

(** C2 (the code departs from the claim).  Eight days after the last
    execution, with a grace period of one day, the time since the grace
    period is [MAX_DAYS] days (first conjunct) and the claim asks for 3;
    [rank] returns 1000.  The difference of line 37 is [7 days, 0 s] and
    its [seconds] field is 0. *)
Theorem rank_seven_days_overdue :
  BoefjeRanker.MAX_DAYS * 86400 * Timedelta.US_PER_SECOND
  <= BoefjeRanker.utcnow
       (BoefjeRanker.quiet_ctx 86400
          (BoefjeRanker.sample_instant
           + (86400 + BoefjeRanker.MAX_DAYS * 86400) * Timedelta.US_PER_SECOND)
          [BoefjeRanker.ran_at BoefjeRanker.sample_instant])
     - BoefjeRanker.modified_at (BoefjeRanker.ran_at BoefjeRanker.sample_instant)
     - 86400 * Timedelta.US_PER_SECOND
  /\ fst (BoefjeRanker.rank
            (BoefjeRanker.quiet_ctx 86400
               (BoefjeRanker.sample_instant
                + (86400 + BoefjeRanker.MAX_DAYS * 86400)
                  * Timedelta.US_PER_SECOND)
               [BoefjeRanker.ran_at BoefjeRanker.sample_instant])
            BoefjeRanker.sample_task [])
     = Returned 1000.
Proof. split; [vm_compute; discriminate|vm_compute; reflexivity]. Qed.

(** ** The ranker, continued *)

Section RankerCoverage.
Import Timedelta BoefjeRanker.

Lemma of_seconds_in_range (n : Z) :
  Z.abs n <= 86400 * MAX_DELTA_DAYS ->
  exists td, of_seconds n = Returned td.
Proof.
  intros Hn. unfold of_seconds, of_microseconds, US_PER_DAY.
  rewrite Z.div_mul_cancel_r by (unfold US_PER_SECOND; lia).
  assert (Hd : Z.abs (n / 86400) <= MAX_DELTA_DAYS).
  { unfold MAX_DELTA_DAYS in *.
    assert (-999999999 <= n / 86400) by (apply Z.div_le_lower_bound; lia).
    assert (n / 86400 <= 999999999) by (apply Z.div_le_upper_bound; lia).
    lia. }
  destruct (Z.abs (n / 86400) >? MAX_DELTA_DAYS) eqn:Hgt.
  - apply Z.gtb_lt in Hgt. lia.
  - eexists; reflexivity.
Qed.

Lemma total_of_microseconds us td :
  of_microseconds us = Returned td -> total_microseconds td = us.
Proof.
  unfold of_microseconds.
  destruct (Z.abs _ >? MAX_DELTA_DAYS); [discriminate|].
  intros [= <-]. unfold total_microseconds; cbn [days seconds microseconds].
  pose proof (Z.div_mod us US_PER_DAY ltac:(unfold US_PER_DAY, US_PER_SECOND; lia)).
  pose proof (Z.div_mod (us mod US_PER_DAY) US_PER_SECOND
                ltac:(unfold US_PER_SECOND; lia)).
  lia.
Qed.

Lemma seconds_of_microseconds us td :
  of_microseconds us = Returned td ->
  seconds td = (us mod US_PER_DAY) / US_PER_SECOND.
Proof.
  unfold of_microseconds.
  destruct (Z.abs _ >? MAX_DELTA_DAYS); [discriminate|].
  intros [= <-]. reflexivity.
Qed.

(** X13. With no prior task for the hash ([None] or an empty list) and a
    grace period that [timedelta] accepts, [rank] returns 2 and logs
    nothing. *)
Theorem rank_without_history (ctx : Ctx) (task : RankedTask)
  (log : list LogRecord) :
  Z.abs (pq_populate_grace_period ctx) <= 86400 * MAX_DELTA_DAYS ->
  get_tasks_by_hash ctx (hash task) = Returned None
  \/ get_tasks_by_hash ctx (hash task) = Returned (Some []) ->
  rank ctx task log = (Returned 2, log).
Proof.
  intros Hg Hh. destruct (of_seconds_in_range _ Hg) as [g Hgs].
  unfold rank, bind, lift. rewrite Hgs.
  destruct Hh as [-> | ->]; reflexivity.
Qed.

(** X14. With a prior task, a returning [rank] returns
    [3 + floor (997 * (604800 - s) / 604800)], where [s] is the seconds
    field of [now - modified_at - grace_period] (the whole seconds of
    its time of day, below 86400); the value lies between 857 and
    1000. *)
Theorem rank_with_history_value (ctx : Ctx) (task : RankedTask)
  (last : PriorTask) (rest : list PriorTask) (log log' : list LogRecord)
  (v : Z) :
  get_tasks_by_hash ctx (hash task) = Returned (Some (last :: rest)) ->
  rank ctx task log = (Returned v, log') ->
  v = 3 + 997 * (604800 - seconds_since_grace ctx last) / 604800
  /\ 0 <= seconds_since_grace ctx last < 86400
  /\ 857 <= v <= 1000.
Proof.
  intros Hhist Hrank.
  pose proof (rank_with_history_range _ _ _ _ _ _ _ Hhist Hrank) as Hrange.
  revert Hrank. unfold rank, bind, lift. rewrite Hhist.
  destruct (of_seconds _) as [grace|] eqn:Hg; [|discriminate].
  destruct (datetime_sub _ _) as [since_last|] eqn:Hd; [|discriminate].
  destruct (sub since_last grace) as [since_grace|] eqn:Hsub; [|discriminate].
  pose proof (of_microseconds_seconds _ _ Hsub) as Hsec.
  assert (Hs : seconds since_grace = seconds_since_grace ctx last).
  { unfold sub in Hsub. rewrite (seconds_of_microseconds _ _ Hsub).
    unfold of_seconds in Hg. unfold datetime_sub in Hd.
    rewrite (total_of_microseconds _ _ Hg), (total_of_microseconds _ _ Hd).
    reflexivity. }
  rewrite Hs in *.
  destruct (_ <? 0) eqn:Hneg; [apply Z.ltb_lt in Hneg; lia|].
  destruct (_ >=? MAX_DAYS * (60 * 60 * 24)) eqn:Hmax.
  { apply Z.geb_le in Hmax. unfold MAX_DAYS in Hmax. lia. }
  destruct (for_each _ _ log) as [[[]|] log1]; [|discriminate].
  rewrite (interpolate_exact _ Hsec). intros [= <- _].
  repeat split; lia.
Qed.

(** X15. With a prior task, [rank] raises whenever the object graph
    raises on the first prior task, for its children or its findings:
    the two calls of the loop are not guarded. *)
Theorem rank_fails_with_object_graph (ctx : Ctx) (task : RankedTask)
  (last : PriorTask) (rest : list PriorTask) (log : list LogRecord)
  (e : Exn) :
  get_tasks_by_hash ctx (hash task) = Returned (Some (last :: rest)) ->
  get_children_by_ooi ctx (organisation_id task) (input_ooi_reference last)
  = Raised e
  \/ get_findings_by_ooi ctx (organisation_id task) (input_ooi_reference last)
     = Raised e ->
  exists e', fst (rank ctx task log) = Raised e'.
Proof.
  intros Hhist Hfail. unfold rank, bind, lift. rewrite Hhist.
  destruct (of_seconds _) as [grace|]; [|eauto].
  destruct (datetime_sub _ _) as [since_last|]; [|eauto].
  destruct (sub since_last grace) as [since_grace|] eqn:Hsub; [|eauto].
  pose proof (of_microseconds_seconds _ _ Hsub) as Hsec.
  destruct (_ <? 0) eqn:Hneg; [apply Z.ltb_lt in Hneg; lia|].
  destruct (_ >=? MAX_DAYS * (60 * 60 * 24)) eqn:Hmax.
  { apply Z.geb_le in Hmax. unfold MAX_DAYS in Hmax. lia. }
  cbn [for_each]. unfold bind at 1. unfold inspect at 1.
  unfold bind, lift, info, modify.
  destruct (datetime_sub (finished_at last) (started_at last)); [|eauto].
  destruct Hfail as [-> | Hf]; [eauto|].
  destruct (get_children_by_ooi _ _ _); [|eauto].
  rewrite Hf. eauto.
Qed.

Lemma rank_without_history_witness :
  rank (quiet_ctx 86400 sample_instant []) sample_task [] = (Returned 2, []).
Proof.
  apply (rank_without_history (quiet_ctx 86400 sample_instant []) sample_task
           []).
  - vm_compute. discriminate.
  - right. reflexivity.
Defined.

Lemma rank_with_history_value_witness :
  seconds_since_grace
    (quiet_ctx 86400 (sample_instant + 176400 * US_PER_SECOND)
       [ran_at sample_instant])
    (ran_at sample_instant) = 3600
  /\ fst (rank (quiet_ctx 86400 (sample_instant + 176400 * US_PER_SECOND)
                  [ran_at sample_instant]) sample_task [])
     = Returned 994
  /\ 994 = 3 + 997 * (604800 - 3600) / 604800.
Proof.
  assert (Hs : seconds_since_grace
                 (quiet_ctx 86400 (sample_instant + 176400 * US_PER_SECOND)
                    [ran_at sample_instant])
                 (ran_at sample_instant) = 3600) by (vm_compute; reflexivity).
  assert (Hr : rank (quiet_ctx 86400 (sample_instant + 176400 * US_PER_SECOND)
                       [ran_at sample_instant]) sample_task []
               = (Returned 994,
                  snd (rank (quiet_ctx 86400
                               (sample_instant + 176400 * US_PER_SECOND)
                               [ran_at sample_instant]) sample_task [])))
    by (vm_compute; reflexivity).
  split; [exact Hs|]. split; [rewrite Hr; reflexivity|].
  destruct (rank_with_history_value
              (quiet_ctx 86400 (sample_instant + 176400 * US_PER_SECOND)
                 [ran_at sample_instant])
              sample_task (ran_at sample_instant) [] [] _ 994 eq_refl Hr)
    as (Hv & _).
  rewrite Hs in Hv. exact Hv.
Defined.

Lemma rank_fails_with_object_graph_witness :
  exists e',
    fst (rank (broken_graph_ctx 86400 (sample_instant + 176400 * US_PER_SECOND)
                 [ran_at sample_instant]) sample_task [])
    = Raised e'.
Proof.
  apply (rank_fails_with_object_graph
           (broken_graph_ctx 86400 (sample_instant + 176400 * US_PER_SECOND)
              [ran_at sample_instant])
           sample_task (ran_at sample_instant) [] [] ExternalServiceError).
  - reflexivity.
  - left. reflexivity.
Defined.

End RankerCoverage.

(** ** The scheduler *)

Section SchedulerFacts.
Import Scheduler.
Context {Q : Type} `{PriorityQueue Q}.

(** Unfolds the store operations and the monad down to the fault script. *)
Ltac run_store :=
  unfold get_task_by_id, create_task, update_task, get_job_by_hash,
    create_job, update_job, request, write_tasks, write_jobs, log,
    now_utc, new_uuid, try_except, bind, get_world, modify, ret, raise,
    with_queue, with_store, with_logs, with_clock_reads, with_uuids_drawn,
    with_slept;
  cbn.

(** Splits on the next scripted answer that the goal inspects. *)
Ltac next_fault :=
  match goal with
  | |- context [hd NoFault ?l] =>
      let f := fresh "f" in
      let fs := fresh "fs" in
      let Hfs := fresh "Hfs" in
      destruct l as [|f fs] eqn:Hfs; cbn in *;
      [|destruct f; cbn in *]; try congruence
  end.

Ltac finish :=
  cbn; repeat split; intros; rewrite <- ?app_assoc; cbn;
  try reflexivity; try congruence; auto.

(** C7.  When the item has no hash, [post_push] returns normally having
    logged one warning; it makes no call on the Task/Job store, whose
    rows, fault script and call trace are what they were, and leaves the
    queue alone. *)
Theorem post_push_without_hash (p_item : PrioritizedItem) (w : World Q) :
  p_hash p_item = None ->
  fst (post_push p_item w) = Returned tt
  /\ store (snd (post_push p_item w)) = store w
  /\ queue (snd (post_push p_item w)) = queue w
  /\ logs (snd (post_push p_item w))
     = logs w ++ [{| level := WARNING;
                     msg := "Task %s has no hash, not creating job [task_id=%s, queue_id=%s]";
                     args := item_args p_item w |}].
Proof.
  intros Hhash. unfold post_push, bind, now_utc, get_world. cbn.
  rewrite Hhash. cbn. auto.
Qed.

Lemma count_replace_task task_id t rows :
  length (filter (fun r => t_id r = task_id) (replace_task t rows))
  = length (filter (fun r => t_id r = task_id) rows).
Proof.
  induction rows as [|r rows IH]; [reflexivity|].
  cbn [replace_task map]. fold (replace_task t rows).
  rewrite !filter_cons.
  destruct (bool_decide_reflect (t_id r = t_id t)) as [Heq|Hne].
  - destruct (decide (t_id t = task_id)), (decide (t_id r = task_id));
      cbn; congruence.
  - destruct (decide (t_id r = task_id)); cbn; congruence.
Qed.

Lemma find_none_count task_id rows :
  find (fun r => bool_decide (t_id r = task_id)) rows = None ->
  length (filter (fun r => t_id r = task_id) rows) = O.
Proof.
  induction rows as [|r rows IH]; [reflexivity|]. cbn [find].
  rewrite filter_cons.
  destruct (bool_decide_reflect (t_id r = task_id)); [discriminate|].
  destruct (decide (t_id r = task_id)); [contradiction|]. exact IH.
Qed.

Lemma find_replace_task t' rows t :
  find (fun r => bool_decide (t_id r = t_id t')) rows = Some t ->
  find (fun r => bool_decide (t_id r = t_id t')) (replace_task t' rows) = Some t'.
Proof.
  induction rows as [|r rows IH]; [discriminate|]. cbn [find replace_task map].
  fold (replace_task t' rows).
  destruct (bool_decide_reflect (t_id r = t_id t')) as [Heq|Hne].
  - intros _. rewrite bool_decide_eq_true_2; reflexivity.
  - intros Hf. rewrite bool_decide_eq_false_2; auto.
Qed.

Ltac split_path :=
  repeat (first
    [ next_fault
    | match goal with
      | |- context [find ?f ?l] => destruct (find f l) eqn:?
      | |- context [p_hash ?p] => destruct (p_hash p) eqn:?
      | |- context [if negb (j_enabled ?j) then _ else _] => destruct (j_enabled j) eqn:?
      end ]; cbn in *; try congruence).

Lemma count_map_replace task_id (t : Task) rows :
  t_id t = task_id ->
  length (filter (fun r => t_id r = task_id)
            (map (fun r => if bool_decide (t_id r = task_id) then t else r) rows))
  = length (filter (fun r => t_id r = task_id) rows).
Proof. intros <-. apply (count_replace_task (t_id t) t rows). Qed.

(** Row accounting for one [post_push], whatever the store answers: an
    id that has a row keeps its rows, and the table its length; an id
    without a row gets at most one. *)
Lemma post_push_task_count (p_item : PrioritizedItem) (w : World Q) :
  (lookup_task (p_id p_item) w = None ->
   (task_count (p_id p_item) (snd (post_push p_item w)) <= 1)%nat)
  /\ (lookup_task (p_id p_item) w <> None ->
      task_count (p_id p_item) (snd (post_push p_item w))
      = task_count (p_id p_item) w
      /\ length (task_rows (store (snd (post_push p_item w))))
         = length (task_rows (store w))).
Proof.
  unfold lookup_task, task_count.
  destruct (find _ _) as [t|] eqn:Hfind.
  - split; [discriminate|intros _].
    unfold post_push, find_or_create_job, link_task_to_job. run_store.
    rewrite ?Hfind. split_path.
    all: rewrite ?count_map_replace, ?length_map by reflexivity; auto.
  - split; [intros _|congruence].
    pose proof (find_none_count _ _ Hfind) as Hc.
    unfold post_push, find_or_create_job, link_task_to_job. run_store.
    rewrite ?Hfind. split_path.
    all: rewrite ?count_map_replace, ?filter_app, ?length_app, ?Hc by reflexivity;
      cbn; try lia.
    all: rewrite ?filter_cons, ?filter_nil; cbn.
    all: try (rewrite decide_True by reflexivity); cbn; try lia.
Qed.

Lemma count_pos_lookup task_id (w : World Q) :
  (1 <= task_count task_id w)%nat -> lookup_task task_id w <> None.
Proof.
  unfold task_count, lookup_task. intros Hc Hl.
  rewrite (find_none_count _ _ Hl) in Hc. lia.
Qed.

(** The existing-Task branch of [post_push] (lines 125-128). *)
Lemma post_push_existing (p_item : PrioritizedItem) (h : string)
  (w : World Q) (t : Task) :
  p_hash p_item = Some h ->
  lookup_task (p_id p_item) w = Some t ->
  nth_fault 0 w <> RaisesError ->
  calls (store (snd (post_push p_item w)))
  = calls (store w) ++ [GetTaskById (p_id p_item);
                        UpdateTask (queued_task p_item w)]
  /\ job_rows (store (snd (post_push p_item w))) = job_rows (store w)
  /\ uuids_drawn (snd (post_push p_item w)) = uuids_drawn w
  /\ logs (snd (post_push p_item w)) = logs w
  /\ (nth_fault 1 w <> RaisesError ->
      fst (post_push p_item w) = Returned tt
      /\ task_rows (store (snd (post_push p_item w)))
         = replace_task (queued_task p_item w) (task_rows (store w))).
Proof.
  unfold nth_fault, lookup_task, queued_task, post_push.
  intros Hhash Hl. run_store. rewrite Hhash; cbn.
  next_fault; rewrite Hl; cbn; try next_fault; finish.
Qed.

(** The first [post_push] of an item on a store that answers every call
    and holds no Task under the item's id. *)
Lemma post_push_creates_row (p_item : PrioritizedItem) (h : string)
  (w : World Q) :
  p_hash p_item = Some h ->
  lookup_task (p_id p_item) w = None ->
  faults (store w) = [] ->
  task_count (p_id p_item) (snd (post_push p_item w)) = 1%nat
  /\ faults (store (snd (post_push p_item w))) = [].
Proof.
  unfold lookup_task, task_count. intros Hhash Hl Hf.
  pose proof (find_none_count _ _ Hl) as Hc.
  unfold post_push, find_or_create_job, link_task_to_job. run_store.
  rewrite Hhash; cbn. split_path.
  all: rewrite ?count_map_replace, ?filter_app, ?length_app, ?Hc by reflexivity.
  all: rewrite ?filter_cons, ?filter_nil; cbn.
  all: rewrite ?decide_True by reflexivity; cbn.
  all: split; [reflexivity|assumption].
Qed.

(** C3.  For an item with a hash: (a) when the store holds a Task under
    the item's id and serves the lookup and the update, [post_push]
    returns normally and the Task table is the old one with the rows of
    that id rewritten in place, so the table keeps its length and the id
    its number of rows; (b) whatever the store answers, two successive
    calls for the item leave at most one row under its id if there was at
    most one before and, once a row is there, the second call adds none;
    (c) on a store that answers every call and has no row for the id,
    the first call creates the one row and the second call is a lookup
    followed by an update of it. *)
Theorem post_push_updates_in_place (p_item : PrioritizedItem) (h : string)
  (w : World Q) :
  p_hash p_item = Some h ->
  let w1 := snd (post_push p_item w) in
  let w2 := snd (post_push p_item w1) in
  (forall t, lookup_task (p_id p_item) w = Some t ->
     nth_fault 0 w <> RaisesError -> nth_fault 1 w <> RaisesError ->
     fst (post_push p_item w) = Returned tt
     /\ task_rows (store w1)
        = replace_task (queued_task p_item w) (task_rows (store w))
     /\ length (task_rows (store w1)) = length (task_rows (store w))
     /\ task_count (p_id p_item) w1 = task_count (p_id p_item) w)
  /\ ((task_count (p_id p_item) w <= 1)%nat ->
      (task_count (p_id p_item) w1 <= 1)%nat
      /\ (task_count (p_id p_item) w2 <= 1)%nat)
  /\ (lookup_task (p_id p_item) w1 <> None ->
      length (task_rows (store w2)) = length (task_rows (store w1))
      /\ task_count (p_id p_item) w2 = task_count (p_id p_item) w1)
  /\ (faults (store w) = [] -> lookup_task (p_id p_item) w = None ->
      task_count (p_id p_item) w1 = 1%nat
      /\ task_count (p_id p_item) w2 = 1%nat
      /\ calls (store w2)
         = calls (store w1) ++ [GetTaskById (p_id p_item);
                                UpdateTask (queued_task p_item w1)]).
Proof.
  intros Hhash w1 w2.
  assert (Hstep : forall w0 : World Q,
             (task_count (p_id p_item) w0 <= 1)%nat ->
             (task_count (p_id p_item) (snd (post_push p_item w0)) <= 1)%nat).
  { intros w0 Hle.
    destruct (post_push_task_count p_item w0) as [Hnone Hsome].
    destruct (lookup_task (p_id p_item) w0) eqn:Hl.
    - destruct Hsome as [-> _]; [discriminate|exact Hle].
    - apply Hnone; reflexivity. }
  split; [|split; [|split]].
  - intros t Hl H0 H1.
    destruct (post_push_task_count p_item w) as [_ Hsome].
    destruct Hsome as [Hcount Hlen]; [congruence|].
    destruct (post_push_existing p_item h w t Hhash Hl H0)
      as (_ & _ & _ & _ & Hret).
    destruct (Hret H1) as [Hr Hrows]. auto.
  - intros Hle. split; [apply Hstep; exact Hle|].
    apply Hstep, Hstep; exact Hle.
  - intros Hl. destruct (post_push_task_count p_item w1) as [_ Hsome].
    destruct (Hsome Hl) as [Hcount Hlen]. split; assumption.
  - intros Hf Hl.
    destruct (post_push_creates_row p_item h w Hhash Hl Hf) as [Hc1 Hf1].
    fold w1 in Hc1, Hf1.
    assert (Hl1 : lookup_task (p_id p_item) w1 <> None).
    { apply count_pos_lookup. rewrite Hc1. lia. }
    destruct (lookup_task (p_id p_item) w1) as [t1|] eqn:Ht1; [|congruence].
    assert (Hn : nth_fault 0 w1 <> RaisesError).
    { unfold nth_fault. rewrite Hf1. discriminate. }
    destruct (post_push_existing p_item h w1 t1 Hhash Ht1 Hn)
      as (Hcalls & _).
    destruct (post_push_task_count p_item w1) as [_ Hsome].
    destruct Hsome as [Hcount _]; [congruence|].
    fold w2 in Hcount, Hcalls. rewrite Hcount. auto.
Qed.

(** C10.  In the existing-Task branch of [post_push] (the item has a
    hash, the store answers the lookup with a Task) the only store calls
    are the lookup and one [update_task] whose argument is the record
    built at the top of the method: status [QUEUED], no job id, and the
    two clock readings of this call as [created_at] and [modified_at].
    No Job is looked up, constructed, created or updated: the Job table
    and the uuid supply are untouched.  Once the update is served,
    [post_push] returns normally and that record is what the store
    holds under the id. *)
Theorem post_push_existing_task_overwritten (p_item : PrioritizedItem)
  (h : string) (w : World Q) (t : Task) :
  p_hash p_item = Some h ->
  lookup_task (p_id p_item) w = Some t ->
  nth_fault 0 w <> RaisesError ->
  let w1 := snd (post_push p_item w) in
  calls (store w1)
  = calls (store w) ++ [GetTaskById (p_id p_item);
                        UpdateTask (queued_task p_item w)]
  /\ t_status (queued_task p_item w) = QUEUED
  /\ t_job_id (queued_task p_item w) = None
  /\ t_created_at (queued_task p_item w) = clock w (clock_reads w)
  /\ t_modified_at (queued_task p_item w) = clock w (S (clock_reads w))
  /\ clock_reads w1 = S (S (clock_reads w))
  /\ job_rows (store w1) = job_rows (store w)
  /\ uuids_drawn w1 = uuids_drawn w
  /\ (nth_fault 1 w <> RaisesError ->
      fst (post_push p_item w) = Returned tt
      /\ task_rows (store w1)
         = replace_task (queued_task p_item w) (task_rows (store w))
      /\ lookup_task (p_id p_item) w1 = Some (queued_task p_item w)).
Proof.
  intros Hhash Hl H0 w1.
  destruct (post_push_existing p_item h w t Hhash Hl H0)
    as (Hcalls & Hjobs & Huuid & _ & Hret).
  fold w1 in Hcalls, Hjobs, Huuid, Hret.
  assert (Hreads : clock_reads w1 = S (S (clock_reads w))).
  { subst w1. revert Hl H0. unfold nth_fault, lookup_task, post_push.
    intros Hl. run_store. rewrite Hhash; cbn.
    next_fault; rewrite Hl; cbn; try next_fault; reflexivity. }
  do 8 (split; [first [assumption|reflexivity]|]).
  intros H1. destruct (Hret H1) as [Hreturns Hrows].
  split; [exact Hreturns|]. split; [exact Hrows|].
  unfold lookup_task in *. rewrite Hrows.
  apply (find_replace_task (queued_task p_item w) _ t). exact Hl.
Qed.

(** The run of [post_pop], with the record it persists written through
    the assignment the method makes. *)
Lemma post_pop_run (p_item : PrioritizedItem) (w : World Q) :
  nth_fault 0 w <> RaisesError ->
  match lookup_task (p_id p_item) w with
  | None =>
      fst (post_pop p_item w) = Returned tt
      /\ task_rows (store (snd (post_pop p_item w))) = task_rows (store w)
      /\ job_rows (store (snd (post_pop p_item w))) = job_rows (store w)
      /\ calls (store (snd (post_pop p_item w)))
         = calls (store w) ++ [GetTaskById (p_id p_item)]
      /\ logs (snd (post_pop p_item w))
         = logs w ++ [{| level := WARNING;
                         msg := "Task %s not found in datastore, not updating status [task_id=%s, queue_id=%s]";
                         args := item_args p_item w |}]
  | Some task =>
      calls (store (snd (post_pop p_item w)))
      = calls (store w) ++ [GetTaskById (p_id p_item);
                            UpdateTask (set_status DISPATCHED task)]
      /\ (nth_fault 1 w <> RaisesError ->
          fst (post_pop p_item w) = Returned tt
          /\ task_rows (store (snd (post_pop p_item w)))
             = replace_task (set_status DISPATCHED task) (task_rows (store w))
          /\ job_rows (store (snd (post_pop p_item w))) = job_rows (store w)
          /\ logs (snd (post_pop p_item w)) = logs w)
  end.
Proof.
  unfold nth_fault, lookup_task, post_pop. intros H0. run_store.
  next_fault;
    (destruct (find _ _) as [task|] eqn:Hfind; cbn; [|finish]);
    try next_fault; finish.
Qed.

(** C8.  [post_pop] asks the store for the Task with the item's id.
    When the store answers that there is none, [post_pop] returns
    normally, logs one warning and leaves the Task and Job rows as they
    were.  When it answers with a Task, the one further store call is
    [update_task] with that Task, its status now [DISPATCHED] and its
    other fields as stored; once that call is served, [post_pop]
    returns normally, the rows under the id hold that record, the Job
    rows and the log are as they were, and a lookup of the id finds a
    Task whose status is [DISPATCHED]. *)
Theorem post_pop_spec (p_item : PrioritizedItem) (w : World Q) :
  nth_fault 0 w <> RaisesError ->
  match lookup_task (p_id p_item) w with
  | None =>
      fst (post_pop p_item w) = Returned tt
      /\ task_rows (store (snd (post_pop p_item w))) = task_rows (store w)
      /\ job_rows (store (snd (post_pop p_item w))) = job_rows (store w)
      /\ calls (store (snd (post_pop p_item w)))
         = calls (store w) ++ [GetTaskById (p_id p_item)]
      /\ logs (snd (post_pop p_item w))
         = logs w ++ [{| level := WARNING;
                         msg := "Task %s not found in datastore, not updating status [task_id=%s, queue_id=%s]";
                         args := item_args p_item w |}]
  | Some task =>
      calls (store (snd (post_pop p_item w)))
      = calls (store w) ++ [GetTaskById (p_id p_item);
                            UpdateTask (dispatched_task task)]
      /\ t_status (dispatched_task task) = DISPATCHED
      /\ (nth_fault 1 w <> RaisesError ->
          fst (post_pop p_item w) = Returned tt
          /\ task_rows (store (snd (post_pop p_item w)))
             = map (fun r => if bool_decide (t_id r = p_id p_item)
                             then dispatched_task task else r)
                 (task_rows (store w))
          /\ job_rows (store (snd (post_pop p_item w))) = job_rows (store w)
          /\ logs (snd (post_pop p_item w)) = logs w
          /\ exists stored,
               lookup_task (p_id p_item) (snd (post_pop p_item w))
               = Some stored
               /\ t_status stored = DISPATCHED
               /\ t_id stored = p_id p_item
               /\ t_p_item stored = t_p_item task
               /\ t_job_id stored = t_job_id task)
  end.
Proof.
  intros H0. pose proof (post_pop_run p_item w H0) as Hrun.
  destruct (lookup_task (p_id p_item) w) as [task|] eqn:Hl; [|exact Hrun].
  destruct Hrun as [Hcalls Hserved].
  assert (Hid : t_id task = p_id p_item).
  { unfold lookup_task in Hl. apply find_some in Hl as [_ Hb].
    apply bool_decide_eq_true in Hb. exact Hb. }
  split; [exact Hcalls|]. split; [reflexivity|].
  intros H1. destruct (Hserved H1) as (Hret & Hrows & Hjobs & Hlogs).
  split; [exact Hret|]. split.
  { rewrite Hrows. unfold replace_task. cbn [t_id set_status].
    rewrite Hid. reflexivity. }
  split; [exact Hjobs|]. split; [exact Hlogs|].
  exists (dispatched_task task). split.
  { unfold lookup_task in *. rewrite Hrows. rewrite <- Hid in Hl |- *.
    apply (find_replace_task (set_status DISPATCHED task) _ task).
    cbn [t_id set_status]. exact Hl. }
  repeat split. exact Hid.
Qed.

(** C4, as the code has it.  [post_push] returns normally whenever its
    first three store calls do not raise ([get_task_by_id]; then
    [create_task], or [update_task] in the existing-Task branch; then
    [get_job_by_hash]) and a [create_job] does not come back as [None]:
    a failure raised by a later call ([create_job], [update_job], the
    linking [update_task]) is caught, and every failure so caught leaves
    one more record in the log, a warning; so does a [create_task] that
    returns [None], which stores nothing. *)
Theorem post_push_absorbs_job_failures (p_item : PrioritizedItem)
  (w : World Q) :
  nth_fault 0 w <> RaisesError ->
  nth_fault 1 w <> RaisesError ->
  nth_fault 2 w <> RaisesError ->
  nth_fault 3 w <> YieldsNone ->
  let w1 := snd (post_push p_item w) in
  fst (post_push p_item w) = Returned tt
  /\ (forall k : nat,
        (k < length (calls (store w1)) - length (calls (store w)))%nat ->
        nth_fault k w = RaisesError ->
        exists r, logs w1 = logs w ++ [r] /\ level r = WARNING)
  /\ (p_hash p_item <> None -> lookup_task (p_id p_item) w = None ->
      nth_fault 1 w = YieldsNone ->
      task_rows (store w1) = task_rows (store w)
      /\ exists r, logs w1 = logs w ++ [r] /\ level r = WARNING).
Proof.
  unfold nth_fault, lookup_task.
  unfold post_push, find_or_create_job, link_task_to_job. run_store.
  intros H0 H1 H2 H3.
  split_path.
  all: (split; [reflexivity|split]).
  all: try (intros Hh Hl Hy;
            first [congruence
                  |split; [reflexivity|eexists; split; reflexivity]]).
  all: intros k Hk Hr; rewrite ?length_app in Hk; cbn in Hk.
  all: do 7 (try (destruct k as [|k]; cbn in Hr; try congruence; try lia)).
  all: try (eexists; split; reflexivity).
Qed.

(** *** The batch push *)




(** *** Waiting for space *)

(** With [max_tries = 0] the method raises [QueueFullError] at once, in
    every world, whether or not the queue has space. *)
Lemma push_with_timeout_zero_tries (fuel : nat) (p_item : PrioritizedItem)
  (timeout : Z) (w : World Q) :
  push_item_to_queue_with_timeout (S fuel) p_item 0 timeout w
  = (Raised QueueFullError, w).
Proof.
  unfold push_item_to_queue_with_timeout. cbn [wait_for_space].
  unfold is_space_on_queue, bind, get_world.
  destruct (_ && _); cbn; reflexivity.
Qed.

(** For a bounded number of tries the loop ends within [max_tries + 1]
    tests of its condition. *)
Lemma wait_for_space_bounded (fuel : nat) (max_tries timeout tries : Z)
  (w : World Q) :
  0 <= timeout -> 0 <= tries <= max_tries ->
  max_tries - tries < Z.of_nat fuel ->
  exists n, fst (wait_for_space fuel max_tries timeout tries w)
            = Returned (Some n)
            /\ tries <= n <= max_tries.
Proof.
  intros Ht. revert tries w.
  induction fuel as [|fuel IH]; intros tries w Hr Hf; [lia|].
  cbn [wait_for_space]. unfold is_space_on_queue, bind at 1 2, get_world.
  destruct (_ && negb (maxsize (queue w) =? 0)); unfold ret at 1; cbn [negb andb].
  - destruct (tries <? max_tries) eqn:Hlt; cbn [orb].
    + apply Z.ltb_lt in Hlt.
      unfold bind at 1, get_world, bind at 1, log, modify, bind at 1, sleep.
      destruct (timeout <? 0) eqn:Hneg; [apply Z.ltb_lt in Hneg; lia|].
      unfold modify.
      edestruct (IH (tries + 1)) as (n & Hn & Hb); [lia|lia|].
      exists n. split; [exact Hn|lia].
    + apply Z.ltb_ge in Hlt.
      destruct (max_tries =? -1) eqn:Hm; [apply Z.eqb_eq in Hm; lia|].
      exists tries. cbn. split; [reflexivity|lia].
  - exists tries. cbn. split; [reflexivity|lia].
Qed.
(** More fuel does not change the outcome of a loop that ended. *)
Lemma wait_for_space_more_fuel (fuel fuel' : nat) (max_tries timeout : Z) :
  forall (tries : Z) (w : World Q),
  (fuel <= fuel')%nat ->
  fst (wait_for_space fuel max_tries timeout tries w) <> Returned None ->
  wait_for_space fuel' max_tries timeout tries w
  = wait_for_space fuel max_tries timeout tries w.
Proof.
  revert fuel'. induction fuel as [|fuel IH]; intros fuel' tries w Hle Hend.
  - cbn in Hend. congruence.
  - destruct fuel' as [|fuel']; [lia|].
    revert Hend. cbn [wait_for_space].
    unfold is_space_on_queue, bind, get_world, log, sleep, modify, ret, raise.
    destruct (_ && negb (maxsize (queue w) =? 0)); cbn [negb andb];
      [|reflexivity].
    destruct ((tries <? max_tries) || (max_tries =? -1)); [|reflexivity].
    destruct (timeout <? 0); [reflexivity|].
    intros Hend. apply IH; [lia|exact Hend].
Qed.
(** *** A new Task and its Job *)

Lemma find_app_none {A} (f : A -> bool) (l l' : list A) :
  find f l = None -> find f (l ++ l') = find f l'.
Proof.
  induction l as [|x l IH]; [reflexivity|]. cbn.
  destruct (f x); [discriminate|]. exact IH.
Qed.

Lemma find_map_replace_task_none task_id (t : Task) rows :
  find (fun r => bool_decide (t_id r = task_id)) rows = None ->
  map (fun r => if bool_decide (t_id r = task_id) then t else r) rows = rows.
Proof.
  induction rows as [|r rows IH]; [reflexivity|]. cbn.
  destruct (bool_decide (t_id r = task_id)); [discriminate|].
  intros Hf. rewrite IH by exact Hf. reflexivity.
Qed.

Lemma find_job_after_create h (j : Job) rows :
  j_hash j = h ->
  find (fun r => bool_decide (j_hash r = h)) rows = None ->
  find (fun r => bool_decide (j_hash r = h)) (replace_job j (rows ++ [j]))
  = Some j.
Proof.
  intros Hh. induction rows as [|r rows IH]; cbn.
  - rewrite (bool_decide_eq_true_2 (j_id j = j_id j)) by reflexivity.
    rewrite bool_decide_eq_true_2 by exact Hh. reflexivity.
  - destruct (bool_decide_reflect (j_hash r = h)) as [|Hne]; [discriminate|].
    intros Hf. destruct (bool_decide (j_id r = j_id j)).
    + rewrite bool_decide_eq_true_2 by exact Hh. reflexivity.
    + rewrite bool_decide_eq_false_2 by exact Hne. apply IH, Hf.
Qed.

Lemma find_job_after_update h (j j' : Job) rows :
  j_hash j' = h -> j_id j' = j_id j ->
  find (fun r => bool_decide (j_hash r = h)) rows = Some j ->
  find (fun r => bool_decide (j_hash r = h)) (replace_job j' rows) = Some j'.
Proof.
  intros Hh Hid. induction rows as [|r rows IH]; cbn; [discriminate|].
  destruct (bool_decide_reflect (j_hash r = h)) as [Heq|Hne].
  - intros [= ->]. rewrite (bool_decide_eq_true_2 (j_id j = j_id j'))
      by (symmetry; exact Hid).
    rewrite bool_decide_eq_true_2 by exact Hh. reflexivity.
  - intros Hf. destruct (bool_decide (j_id r = j_id j')).
    + rewrite bool_decide_eq_true_2 by exact Hh. reflexivity.
    + rewrite bool_decide_eq_false_2 by exact Hne. apply IH, Hf.
Qed.

Lemma replace_task_after_create (t t' : Task) rows :
  t_id t' = t_id t ->
  find (fun r => bool_decide (t_id r = t_id t)) rows = None ->
  replace_task t' (rows ++ [t]) = rows ++ [t'].
Proof.
  intros Hid Hf. unfold replace_task. rewrite map_app, Hid.
  rewrite (find_map_replace_task_none (t_id t) t' rows Hf). cbn.
  rewrite bool_decide_eq_true_2 by reflexivity. reflexivity.
Qed.

(** The run of [post_push] for a new Task on a store that answers every
    call, with the rows as the store operations leave them. *)
Lemma post_push_new_task_run (p_item : PrioritizedItem) (h : string)
  (w : World Q) :
  p_hash p_item = Some h ->
  lookup_task (p_id p_item) w = None ->
  faults (store w) = [] ->
  let job := match lookup_job h w with
             | Some j => if negb (j_enabled j) then set_enabled true j else j
             | None => new_job p_item h w
             end in
  let task := set_job_id (Some (j_id job)) (queued_task p_item w) in
  fst (post_push p_item w) = Returned tt
  /\ task_rows (store (snd (post_push p_item w)))
     = replace_task task (task_rows (store w) ++ [queued_task p_item w])
  /\ job_rows (store (snd (post_push p_item w)))
     = match lookup_job h w with
       | Some _ => replace_job job (job_rows (store w))
       | None => replace_job job (job_rows (store w) ++ [job])
       end
  /\ logs (snd (post_push p_item w)) = logs w
  /\ queue (snd (post_push p_item w)) = queue w
  /\ uuids_drawn (snd (post_push p_item w))
     = match lookup_job h w with
       | Some _ => uuids_drawn w
       | None => S (uuids_drawn w)
       end
  /\ calls (store (snd (post_push p_item w)))
     = calls (store w)
       ++ [GetTaskById (p_id p_item); CreateTask (queued_task p_item w);
           GetJobByHash h]
       ++ match lookup_job h w with
          | Some _ => []
          | None => [CreateJob job]
          end
       ++ [UpdateJob job; UpdateTask task].
Proof.
  unfold lookup_task, lookup_job, new_job, queued_task.
  intros Hhash Hl Hf.
  unfold post_push, find_or_create_job, link_task_to_job. run_store.
  rewrite Hhash; cbn.
  next_fault. rewrite Hl; cbn.
  destruct (find (fun r => bool_decide (j_hash r = h)) _) as [j|] eqn:Hj; cbn.
  - destruct (j_enabled j); cbn; rewrite <- ?app_assoc; repeat split.
  - rewrite <- ?app_assoc; repeat split.
Qed.

Lemma post_push_keeps_queue (p_item : PrioritizedItem) (w : World Q) :
  queue (snd (post_push p_item w)) = queue w
  /\ slept (snd (post_push p_item w)) = slept w
  /\ other_threads (snd (post_push p_item w)) = other_threads w.
Proof.
  unfold post_push, find_or_create_job, link_task_to_job. run_store.
  split_path; repeat split.
Qed.

Lemma post_pop_keeps_queue (p_item : PrioritizedItem) (w : World Q) :
  queue (snd (post_pop p_item w)) = queue w
  /\ slept (snd (post_pop p_item w)) = slept w.
Proof.
  unfold post_pop. run_store. split_path; repeat split.
Qed.

Lemma find_after_create_linked (t t' : Task) rows :
  t_id t' = t_id t ->
  find (fun r => bool_decide (t_id r = t_id t)) rows = None ->
  find (fun r => bool_decide (t_id r = t_id t)) (rows ++ [t']) = Some t'.
Proof.
  intros Hid Hf. rewrite (find_app_none _ _ _ Hf). cbn.
  rewrite bool_decide_eq_true_2 by exact Hid. reflexivity.
Qed.

(** X1. [post_push] of an item with a hash, when the store answers every
    call and holds neither a Task of the item's id nor a Job of its
    hash: it returns, appends one Task row, stores one new enabled Job
    that [get_job_by_hash] then finds, logs nothing, and makes six store
    calls in the order given.  A lookup of the item's id then finds a
    QUEUED Task for the item whose [job_id] is the uuid drawn for the
    Job. *)
Theorem post_push_new_task_new_job (p_item : PrioritizedItem) (h : string)
  (w : World Q) :
  p_hash p_item = Some h ->
  lookup_task (p_id p_item) w = None ->
  lookup_job h w = None ->
  faults (store w) = [] ->
  fst (post_push p_item w) = Returned tt
  /\ task_rows (store (snd (post_push p_item w)))
     = task_rows (store w)
       ++ [set_job_id (Some (j_id (new_job p_item h w))) (queued_task p_item w)]
  /\ lookup_job h (snd (post_push p_item w)) = Some (new_job p_item h w)
  /\ length (job_rows (store (snd (post_push p_item w))))
     = S (length (job_rows (store w)))
  /\ logs (snd (post_push p_item w)) = logs w
  /\ calls (store (snd (post_push p_item w)))
     = calls (store w)
       ++ [GetTaskById (p_id p_item);
           CreateTask (queued_task p_item w);
           GetJobByHash h;
           CreateJob (new_job p_item h w);
           UpdateJob (new_job p_item h w);
           UpdateTask (set_job_id (Some (j_id (new_job p_item h w)))
                         (queued_task p_item w))]
  /\ exists stored,
       lookup_task (p_id p_item) (snd (post_push p_item w)) = Some stored
       /\ t_job_id stored = Some (uuid4 w (uuids_drawn w))
       /\ t_status stored = QUEUED
       /\ t_p_item stored = p_item.
Proof.
  intros Hhash Hl Hj Hf.
  destruct (post_push_new_task_run p_item h w Hhash Hl Hf)
    as (Hret & Htasks & Hjobs & Hlogs & _ & _ & Hcalls).
  rewrite Hj in Htasks, Hjobs, Hcalls.
  assert (Hrows : task_rows (store (snd (post_push p_item w)))
                  = task_rows (store w)
                    ++ [set_job_id (Some (j_id (new_job p_item h w)))
                          (queued_task p_item w)]).
  { rewrite Htasks. apply replace_task_after_create; [reflexivity|exact Hl]. }
  split; [exact Hret|]. split; [exact Hrows|].
  split.
  { unfold lookup_job at 1. rewrite Hjobs.
    apply find_job_after_create; [reflexivity|exact Hj]. }
  split.
  { rewrite Hjobs. unfold replace_job. rewrite length_map, length_app. cbn. lia. }
  split; [exact Hlogs|]. split; [exact Hcalls|].
  eexists. split.
  { unfold lookup_task at 1. rewrite Hrows.
    apply (find_after_create_linked (queued_task p_item w));
      [reflexivity|exact Hl]. }
  repeat split.
Qed.

(** X2. [post_push] of an item with a hash, when the store answers every
    call, holds no Task of the item's id but a Job [j] of its hash: no
    Job is created and no uuid drawn, and five store calls are made.
    Afterwards a lookup of the id finds a QUEUED Task for the item whose
    [job_id] is the id of [j], and a lookup of the hash finds [j] with
    [enabled] true. *)
Theorem post_push_new_task_existing_job (p_item : PrioritizedItem)
  (h : string) (w : World Q) (j : Job) :
  p_hash p_item = Some h ->
  lookup_task (p_id p_item) w = None ->
  lookup_job h w = Some j ->
  faults (store w) = [] ->
  fst (post_push p_item w) = Returned tt
  /\ task_rows (store (snd (post_push p_item w)))
     = task_rows (store w)
       ++ [set_job_id (Some (j_id j)) (queued_task p_item w)]
  /\ lookup_job h (snd (post_push p_item w)) = Some (set_enabled true j)
  /\ length (job_rows (store (snd (post_push p_item w))))
     = length (job_rows (store w))
  /\ uuids_drawn (snd (post_push p_item w)) = uuids_drawn w
  /\ logs (snd (post_push p_item w)) = logs w
  /\ calls (store (snd (post_push p_item w)))
     = calls (store w)
       ++ [GetTaskById (p_id p_item);
           CreateTask (queued_task p_item w);
           GetJobByHash h;
           UpdateJob (set_enabled true j);
           UpdateTask (set_job_id (Some (j_id j)) (queued_task p_item w))]
  /\ exists stored job,
       lookup_task (p_id p_item) (snd (post_push p_item w)) = Some stored
       /\ lookup_job h (snd (post_push p_item w)) = Some job
       /\ t_job_id stored = Some (j_id j)
       /\ t_status stored = QUEUED
       /\ t_p_item stored = p_item
       /\ j_enabled job = true
       /\ j_id job = j_id j
       /\ j_hash job = h
       /\ j_p_item job = j_p_item j.
Proof.
  intros Hhash Hl Hj Hf.
  destruct (post_push_new_task_run p_item h w Hhash Hl Hf)
    as (Hret & Htasks & Hjobs & Hlogs & _ & Huuid & Hcalls).
  rewrite Hj in Htasks, Hjobs, Hcalls, Huuid.
  assert (Hjob : (if negb (j_enabled j) then set_enabled true j else j)
                 = set_enabled true j).
  { destruct j as [? ? ? [] ? ? ?]; reflexivity. }
  rewrite Hjob in Htasks, Hjobs, Hcalls.
  assert (Hhj : j_hash j = h).
  { unfold lookup_job in Hj. apply find_some in Hj as [_ Hb].
    apply bool_decide_eq_true in Hb. exact Hb. }
  assert (Hrows : task_rows (store (snd (post_push p_item w)))
                  = task_rows (store w)
                    ++ [set_job_id (Some (j_id j)) (queued_task p_item w)]).
  { rewrite Htasks. apply replace_task_after_create; [reflexivity|exact Hl]. }
  assert (Hfound : lookup_job h (snd (post_push p_item w))
                   = Some (set_enabled true j)).
  { unfold lookup_job at 1. rewrite Hjobs.
    apply (find_job_after_update h j); [exact Hhj|reflexivity|exact Hj]. }
  split; [exact Hret|]. split; [exact Hrows|]. split; [exact Hfound|].
  split.
  { rewrite Hjobs. unfold replace_job. apply length_map. }
  split; [exact Huuid|]. split; [exact Hlogs|]. split; [exact Hcalls|].
  eexists _, _. split.
  { unfold lookup_task at 1. rewrite Hrows.
    apply (find_after_create_linked (queued_task p_item w));
      [reflexivity|exact Hl]. }
  split; [exact Hfound|]. repeat split. exact Hhj.
Qed.

Lemma filter_map_replace_other task_id other (t : Task) rows :
  other <> task_id -> t_id t = task_id ->
  filter (fun r => t_id r = other)
    (map (fun r => if bool_decide (t_id r = task_id) then t else r) rows)
  = filter (fun r => t_id r = other) rows.
Proof.
  intros Hne Hid. induction rows as [|r rows IH]; [reflexivity|]. cbn [map].
  rewrite !filter_cons, IH.
  destruct (bool_decide_reflect (t_id r = task_id)) as [Heq|Hr].
  - rewrite decide_False by congruence.
    rewrite decide_False by congruence. reflexivity.
  - reflexivity.
Qed.

Lemma filter_other_after_create other (t : Task) rows :
  other <> t_id t ->
  filter (fun r => t_id r = other) (rows ++ [t])
  = filter (fun r => t_id r = other) rows.
Proof.
  intros Hne. rewrite filter_app, filter_cons, decide_False by congruence.
  rewrite filter_nil. apply app_nil_r.
Qed.

(** X3. Whatever the store answers, [post_push] leaves the queue and the
    sleep record alone, does not touch the Task rows of other ids, adds
    at most one Task row and at most one Job row and removes none, and
    adds no Job row when a Job of the item's hash is stored. *)
Theorem post_push_frame (p_item : PrioritizedItem) (w : World Q) :
  queue (snd (post_push p_item w)) = queue w
  /\ slept (snd (post_push p_item w)) = slept w
  /\ (forall other, other <> p_id p_item ->
        tasks_of other (snd (post_push p_item w)) = tasks_of other w)
  /\ (length (task_rows (store w))
      <= length (task_rows (store (snd (post_push p_item w))))
      <= S (length (task_rows (store w))))%nat
  /\ (length (job_rows (store w))
      <= length (job_rows (store (snd (post_push p_item w))))
      <= S (length (job_rows (store w))))%nat
  /\ (forall h, p_hash p_item = Some h -> lookup_job h w <> None ->
        length (job_rows (store (snd (post_push p_item w))))
        = length (job_rows (store w))).
Proof.
  unfold tasks_of, lookup_job.
  unfold post_push, find_or_create_job, link_task_to_job. run_store.
  split_path.
  all: split; [reflexivity|split; [reflexivity|]].
  all: split;
    [intros other Hne;
     rewrite ?filter_map_replace_other by (congruence || reflexivity);
     rewrite ?filter_other_after_create by exact Hne; reflexivity|].
  all: rewrite ?length_map, ?length_app; cbn [length].
  all: split; [lia|split; [lia|]].
  all: intros h' Hh' Hfound; try congruence; try lia.
  all: injection Hh' as <-; congruence.
Qed.

Lemma map_id_replace task_id (t : Task) rows :
  t_id t = task_id ->
  map t_id (map (fun r => if bool_decide (t_id r = task_id) then t else r) rows)
  = map t_id rows.
Proof.
  intros Hid. induction rows as [|r rows IH]; [reflexivity|]. cbn.
  rewrite IH. destruct (bool_decide_reflect (t_id r = task_id)); congruence.
Qed.

Lemma found_task_id task_id rows (t : Task) :
  find (fun r => bool_decide (t_id r = task_id)) rows = Some t ->
  t_id t = task_id.
Proof.
  intros Hf. apply find_some in Hf as [_ Hb].
  apply bool_decide_eq_true in Hb. exact Hb.
Qed.

(** X4. Whatever the store answers, [post_pop] leaves the queue, the
    clock and the Job rows alone, keeps the ids of the Task rows (it
    neither adds nor removes a row), and does not touch the Task rows of
    other ids. *)
Theorem post_pop_frame (p_item : PrioritizedItem) (w : World Q) :
  queue (snd (post_pop p_item w)) = queue w
  /\ clock_reads (snd (post_pop p_item w)) = clock_reads w
  /\ job_rows (store (snd (post_pop p_item w))) = job_rows (store w)
  /\ map t_id (task_rows (store (snd (post_pop p_item w))))
     = map t_id (task_rows (store w))
  /\ (forall other, other <> p_id p_item ->
        tasks_of other (snd (post_pop p_item w)) = tasks_of other w).
Proof.
  unfold tasks_of, post_pop. run_store.
  split_path.
  all: try match goal with
       | Hfind : find _ _ = Some ?t |- _ =>
           pose proof (found_task_id _ _ _ Hfind) as Hid
       end.
  all: do 3 (split; [reflexivity|]).
  all: split; [rewrite ?map_id_replace by reflexivity; reflexivity|].
  all: intros other Hne.
  all: rewrite ?filter_map_replace_other by (congruence || reflexivity).
  all: reflexivity.
Qed.

(** *** Popping *)

(** X5. [pop_item_from_queue] by the outcome of [queue.pop]: an exception
    of the queue is raised again and [None] is returned as it is, both
    without a store call; an item is returned after [post_pop], unless
    [post_pop] raises, and then the exception leaves with the item
    already taken from the queue. *)
Theorem pop_item_from_queue_outcomes (filters : option (list string))
  (w : World Q) :
  match pop filters (queue w) with
  | (Raised e, q) =>
      pop_item_from_queue filters w = (Raised e, with_queue q w)
  | (Returned None, q) =>
      pop_item_from_queue filters w = (Returned None, with_queue q w)
  | (Returned (Some p_item), q) =>
      queue (snd (pop_item_from_queue filters w)) = q
      /\ fst (pop_item_from_queue filters w)
         = match fst (post_pop p_item (with_queue q w)) with
           | Returned _ => Returned (Some p_item)
           | Raised e => Raised e
           end
      /\ store (snd (pop_item_from_queue filters w))
         = store (snd (post_pop p_item (with_queue q w)))
  end.
Proof.
  unfold pop_item_from_queue, try_except, on_queue, bind, raise, ret.
  destruct (pop filters (queue w)) as [[[p_item|]|e] q]; try reflexivity.
  pose proof (post_pop_keeps_queue p_item (with_queue q w)) as (Hq & _).
  destruct (post_pop p_item (with_queue q w)) as [[[]|e] w']; cbn in *; auto.
Qed.

(** *** Pushing single items and batches *)

(** X6. When [queue.push] raises, [push_item_to_queue] raises the same
    exception, makes no store call and reads no clock; it logs one
    warning for the three queue errors and nothing for another
    exception. *)
Theorem push_item_to_queue_rejected (p_item : PrioritizedItem) (w : World Q)
  (e : Exn) (q : Q) :
  push p_item (queue w) = (Raised e, q) ->
  fst (push_item_to_queue p_item w) = Raised e
  /\ queue (snd (push_item_to_queue p_item w)) = q
  /\ store (snd (push_item_to_queue p_item w)) = store w
  /\ clock_reads (snd (push_item_to_queue p_item w)) = clock_reads w
  /\ (if skipped_in_batch e
      then exists r, logs (snd (push_item_to_queue p_item w)) = logs w ++ [r]
                     /\ level r = WARNING
      else logs (snd (push_item_to_queue p_item w)) = logs w).
Proof.
  intros Hpush.
  unfold push_item_to_queue, try_except, on_queue, bind, get_world, log,
    modify, raise, ret.
  rewrite Hpush.
  destruct e; cbn; repeat split; eauto.
Qed.

(** An accepted push logs at debug level and goes on to [post_push]. *)
Lemma push_item_to_queue_accepted (p_item : PrioritizedItem) (w : World Q)
  (q : Q) :
  push p_item (queue w) = (Returned tt, q) ->
  exists r,
    level r = DEBUG
    /\ push_item_to_queue p_item w
       = post_push p_item (with_logs (logs w ++ [r]) (with_queue q w)).
Proof.
  intros Hpush.
  unfold push_item_to_queue, try_except, on_queue, bind, get_world, log,
    modify, raise, ret.
  rewrite Hpush. eexists. split; [|reflexivity]. reflexivity.
Qed.

(** The batch never lets one of the three queue errors out. *)
Lemma push_items_loop_raises (items : list PrioritizedItem) :
  forall (c : Z) (w : World Q) (e : Exn),
  fst (push_items_loop c items w) = Raised e -> skipped_in_batch e = false.
Proof.
  induction items as [|x items IH]; intros c w e; [discriminate|].
  cbn [push_items_loop]. unfold bind at 1. unfold try_push_item at 1.
  unfold try_except, bind at 1.
  destruct (push_item_to_queue x w) as [[[]|e'] w1].
  - unfold ret at 1. apply IH.
  - unfold bind, get_world, log, modify, ret, raise.
    destruct (skipped_in_batch e') eqn:Hs.
    + apply IH.
    + cbn. intros [= <-]. exact Hs.
Qed.

(** X8. [push_items_to_queue] never raises [NotAllowedError],
    [QueueFullError] or [InvalidPrioritizedItemError]: what it raises is
    another exception. *)
Theorem push_items_to_queue_never_raises_queue_error
  (items : list PrioritizedItem) (w : World Q) (e : Exn) :
  fst (push_items_to_queue items w) = Raised e ->
  e <> NotAllowedError /\ e <> QueueFullError
  /\ e <> InvalidPrioritizedItemError.
Proof.
  unfold push_items_to_queue, bind.
  destruct (push_items_loop 0 items w) as [[c|e'] w'] eqn:Hl; [discriminate|].
  cbn. intros [= <-].
  pose proof (push_items_loop_raises items 0 w e') as Hs.
  rewrite Hl in Hs. specialize (Hs eq_refl).
  destruct e'; try discriminate; repeat split; discriminate.
Qed.

(** X7. [push_item_to_queue] of an item with a hash that the queue
    accepts, when the store answers every call and holds no Task of the
    item's id: it returns, and afterwards the store finds a QUEUED Task
    for the item and an enabled Job of its hash, the Task linked to the
    Job. *)
Theorem push_item_to_queue_persists (p_item : PrioritizedItem) (h : string)
  (w : World Q) (q : Q) :
  push p_item (queue w) = (Returned tt, q) ->
  p_hash p_item = Some h ->
  lookup_task (p_id p_item) w = None ->
  faults (store w) = [] ->
  fst (push_item_to_queue p_item w) = Returned tt
  /\ queue (snd (push_item_to_queue p_item w)) = q
  /\ exists (t : Task) (j : Job),
       lookup_task (p_id p_item) (snd (push_item_to_queue p_item w)) = Some t
       /\ lookup_job h (snd (push_item_to_queue p_item w)) = Some j
       /\ t_status t = QUEUED
       /\ t_p_item t = p_item
       /\ t_job_id t = Some (j_id j)
       /\ j_enabled j = true
       /\ j_hash j = h.
Proof.
  intros Hpush Hhash Hl Hf.
  destruct (push_item_to_queue_accepted p_item w q Hpush) as (r & _ & ->).
  set (w0 := with_logs (logs w ++ [r]) (with_queue q w)).
  assert (Hl0 : lookup_task (p_id p_item) w0 = None) by exact Hl.
  assert (Hf0 : faults (store w0) = []) by exact Hf.
  destruct (post_push_new_task_run p_item h w0 Hhash Hl0 Hf0)
    as (Hret & Htasks & Hjobs & _ & Hq & _ & _).
  split; [exact Hret|]. split; [rewrite Hq; reflexivity|].
  cbv zeta in Htasks, Hjobs.
  unfold lookup_task at 1, lookup_job at 1. rewrite Htasks, Hjobs.
  rewrite replace_task_after_create by (reflexivity || exact Hl0).
  destruct (lookup_job h w0) as [j|] eqn:Hj.
  - assert (Hjob : (if negb (j_enabled j) then set_enabled true j else j)
                   = set_enabled true j).
    { destruct j as [? ? ? [] ? ? ?]; reflexivity. }
    rewrite Hjob.
    assert (Hhj : j_hash j = h).
    { unfold lookup_job in Hj. apply find_some in Hj as [_ Hb].
      apply bool_decide_eq_true in Hb. exact Hb. }
    eexists _, (set_enabled true j). split.
    { apply (find_after_create_linked (queued_task p_item w0));
        [reflexivity|exact Hl0]. }
    split.
    { apply (find_job_after_update h j); [exact Hhj|reflexivity|exact Hj]. }
    repeat split. exact Hhj.
  - eexists _, (new_job p_item h w0). split.
    { apply (find_after_create_linked (queued_task p_item w0));
        [reflexivity|exact Hl0]. }
    split.
    { apply find_job_after_create; [reflexivity|exact Hj]. }
    repeat split.
Qed.
(** *** Waiting for space, continued *)

Lemma push_item_to_queue_keeps_slept (p_item : PrioritizedItem) (w : World Q) :
  slept (snd (push_item_to_queue p_item w)) = slept w.
Proof.
  unfold push_item_to_queue, try_except, on_queue, bind, get_world, log,
    modify, raise, ret.
  destruct (push p_item (queue w)) as [[[]|e] q].
  - destruct (post_push_keeps_queue p_item
                (with_logs
                   (logs (with_queue q w) ++
                    [{| level := DEBUG;
                        msg := "Pushed item (%s) to queue %s with priority %s [p_item.id=%s, p_item.hash=%s, queue.pq_id=%s, queue.qsize=%d]";
                        args := [ArgStr (Some (p_id p_item));
                                 ArgStr (Some (pq_id (queue (with_queue q w))));
                                 ArgInt (p_priority p_item);
                                 ArgStr (Some (p_id p_item));
                                 ArgStr (p_hash p_item);
                                 ArgStr (Some (pq_id (queue (with_queue q w))));
                                 ArgInt (qsize (queue (with_queue q w)))] |}])
                   (with_queue q w))) as (_ & Hs & _).
    exact Hs.
  - destruct e; reflexivity.
Qed.

(** One test of the loop condition. *)
Lemma wait_for_space_step (fuel : nat) (max_tries timeout tries : Z)
  (w : World Q) :
  wait_for_space (S fuel) max_tries timeout tries w
  = if queue_full (queue w) && ((tries <? max_tries) || (max_tries =? -1))
    then
      if timeout <? 0
      then (Raised ValueError,
            with_logs
              (logs w ++
               [{| level := DEBUG;
                   msg := "Queue %s is full, waiting for space [queue_id=%s, qsize=%d]";
                   args := queue_args w |}]) w)
      else wait_for_space fuel max_tries timeout (tries + 1)
             (with_slept (other_threads w (length (slept w)) (queue w))
                (slept w ++ [timeout])
                (with_logs
                   (logs w ++
                    [{| level := DEBUG;
                        msg := "Queue %s is full, waiting for space [queue_id=%s, qsize=%d]";
                        args := queue_args w |}]) w))
    else (Returned (Some tries), w).
Proof.
  cbn [wait_for_space].
  unfold is_space_on_queue, queue_full, bind, get_world, log, sleep, modify,
    ret, raise.
  destruct (_ && negb (maxsize (queue w) =? 0)); cbn [negb andb];
    [|reflexivity].
  destruct ((tries <? max_tries) || (max_tries =? -1)); [|reflexivity].
  destruct (timeout <? 0); reflexivity.
Qed.

(** X9. With [max_tries] zero or negative, other than -1,
    [push_item_to_queue_with_timeout] raises [QueueFullError] at once
    and changes nothing: it neither sleeps, logs nor pushes, whatever
    the queue holds. *)
Theorem push_with_timeout_no_tries (fuel : nat) (p_item : PrioritizedItem)
  (max_tries timeout : Z) (w : World Q) :
  max_tries <= 0 -> max_tries <> -1 ->
  push_item_to_queue_with_timeout (S fuel) p_item max_tries timeout w
  = (Raised QueueFullError, w).
Proof.
  intros Hle Hne. unfold push_item_to_queue_with_timeout, bind.
  rewrite wait_for_space_step.
  assert (H1 : (0 <? max_tries) = false) by (apply Z.ltb_ge; lia).
  assert (H2 : (max_tries =? -1) = false) by (apply Z.eqb_neq; exact Hne).
  assert (H3 : (0 >=? max_tries) = true) by (apply Z.geb_le; lia).
  rewrite H1, H2, andb_false_r, H3. reflexivity.
Qed.

(** X10. When the queue has space at the first test and [max_tries] is
    positive or -1, [push_item_to_queue_with_timeout] is
    [push_item_to_queue]: no sleep, no log of its own, the same
    exception if the push raises. *)
Theorem push_with_timeout_space_at_once (fuel : nat)
  (p_item : PrioritizedItem) (max_tries timeout : Z) (w : World Q) :
  queue_full (queue w) = false ->
  0 < max_tries \/ max_tries = -1 ->
  push_item_to_queue_with_timeout (S fuel) p_item max_tries timeout w
  = match push_item_to_queue p_item w with
    | (Returned _, w') => (Returned (Some tt), w')
    | (Raised e, w') => (Raised e, w')
    end.
Proof.
  intros Hfree Hm. unfold push_item_to_queue_with_timeout, bind.
  rewrite wait_for_space_step, Hfree. cbn [andb].
  assert (H3 : (0 >=? max_tries) && negb (max_tries =? -1) = false).
  { destruct Hm as [Hm| ->]; [|reflexivity].
    apply andb_false_iff. left. rewrite Z.geb_leb. apply Z.leb_gt. lia. }
  rewrite H3. destruct (push_item_to_queue p_item w) as [[[]|e] w'];
    reflexivity.
Qed.

(** The loop with a bounded number of tries: how it ends and how often
    it slept. *)
Lemma wait_for_space_sleeps (fuel : nat) (max_tries timeout : Z) :
  0 <= timeout ->
  forall (tries : Z) (w : World Q),
  0 <= tries <= max_tries ->
  max_tries - tries < Z.of_nat fuel ->
  exists (k : nat) (w' : World Q),
    wait_for_space fuel max_tries timeout tries w
    = (Returned (Some (tries + Z.of_nat k)), w')
    /\ tries + Z.of_nat k <= max_tries
    /\ slept w' = slept w ++ replicate k timeout
    /\ (tries + Z.of_nat k < max_tries -> queue_full (queue w') = false).
Proof.
  intros Ht. induction fuel as [|fuel IH]; intros tries w Hr Hf; [lia|].
  rewrite wait_for_space_step.
  destruct (queue_full (queue w)) eqn:Hfull; cbn [andb].
  - destruct (tries <? max_tries) eqn:Hlt; cbn [orb].
    + apply Z.ltb_lt in Hlt.
      destruct (timeout <? 0) eqn:Hneg; [apply Z.ltb_lt in Hneg; lia|].
      edestruct (IH (tries + 1)) as (k & w' & Hrun & Hb & Hs & Hfree);
        [lia|lia|].
      exists (S k), w'. rewrite Hrun. split; [f_equal; f_equal; f_equal; lia|].
      split; [lia|]. split.
      * rewrite Hs. cbn [slept with_slept replicate].
        rewrite <- app_assoc. reflexivity.
      * intros Hlt'. apply Hfree. lia.
    + apply Z.ltb_ge in Hlt.
      destruct (max_tries =? -1) eqn:Hm; [apply Z.eqb_eq in Hm; lia|].
      exists O, w. rewrite Z.add_0_r. cbn [replicate]. rewrite app_nil_r.
      repeat split; [lia|lia].
  - exists O, w. rewrite Z.add_0_r. cbn [replicate]. rewrite app_nil_r.
    repeat split; [lia|]. intros _. exact Hfull.
Qed.

(** X11. For [max_tries >= 0] and a timeout that [sleep] accepts, the
    method ends within [max_tries + 1] tests of the loop condition: it
    has slept [k <= max_tries] times, each for [timeout], and returns or
    raises; when it slept [max_tries] times it raises
    [QueueFullError]. *)
Theorem push_with_timeout_terminates (p_item : PrioritizedItem)
  (max_tries timeout : Z) (w : World Q) :
  0 <= max_tries -> 0 <= timeout ->
  exists k : nat,
    Z.of_nat k <= max_tries
    /\ slept (snd (push_item_to_queue_with_timeout (S (Z.to_nat max_tries))
                     p_item max_tries timeout w))
       = slept w ++ replicate k timeout
    /\ (fst (push_item_to_queue_with_timeout (S (Z.to_nat max_tries))
               p_item max_tries timeout w) = Returned (Some tt)
        \/ exists e,
             fst (push_item_to_queue_with_timeout (S (Z.to_nat max_tries))
                    p_item max_tries timeout w) = Raised e)
    /\ (Z.of_nat k = max_tries ->
        fst (push_item_to_queue_with_timeout (S (Z.to_nat max_tries))
               p_item max_tries timeout w) = Raised QueueFullError).
Proof.
  intros Hm Ht.
  destruct (wait_for_space_sleeps (S (Z.to_nat max_tries)) max_tries timeout
              Ht 0 w ltac:(lia) ltac:(lia)) as (k & w' & Hrun & Hb & Hs & _).
  exists k. unfold push_item_to_queue_with_timeout, bind. rewrite Hrun.
  rewrite Z.add_0_l in *.
  destruct (Z.of_nat k >=? max_tries) eqn:Hge.
  - assert (Hne : (max_tries =? -1) = false) by (apply Z.eqb_neq; lia).
    rewrite Hne. cbn. repeat split; eauto.
  - cbn [andb].
    pose proof (push_item_to_queue_keeps_slept p_item w') as Hk.
    destruct (push_item_to_queue p_item w') as [[[]|e] w'']; cbn in *.
    + rewrite Hk. repeat split; eauto.
      intros Heq. rewrite Z.geb_leb in Hge. apply Z.leb_gt in Hge. lia.
    + rewrite Hk. repeat split; eauto.
      intros Heq. rewrite Z.geb_leb in Hge. apply Z.leb_gt in Hge. lia.
Qed.

(** With [max_tries = -1] and a queue that the other threads never
    free, the loop is still running after any number of tests. *)
Lemma wait_forever (timeout : Z) (full : Q -> bool) (threads : nat -> Q -> Q) :
  0 <= timeout ->
  (forall q, full q = true -> queue_full q = true) ->
  (forall k q, full q = true -> full (threads k q) = true) ->
  forall (fuel : nat) (tries : Z) (w : World Q),
  other_threads w = threads ->
  full (queue w) = true ->
  fst (wait_for_space fuel (-1) timeout tries w) = Returned None
  /\ slept (snd (wait_for_space fuel (-1) timeout tries w))
     = slept w ++ replicate fuel timeout.
Proof.
  intros Ht Hfull Hkeep. induction fuel as [|fuel IH]; intros tries w Hth Hq.
  - cbn. rewrite app_nil_r. split; reflexivity.
  - rewrite wait_for_space_step, (Hfull _ Hq). cbn [andb].
    rewrite orb_true_r.
    destruct (timeout <? 0) eqn:Hneg; [apply Z.ltb_lt in Hneg; lia|].
    edestruct (IH (tries + 1)) as [Hr Hs]; [| |split; [exact Hr|]].
    + cbn. exact Hth.
    + cbn. rewrite Hth. apply Hkeep, Hq.
    + rewrite Hs. cbn [slept with_slept replicate].
      rewrite <- app_assoc. reflexivity.
Qed.

(** X12. With [max_tries = -1], a full queue that the other threads keep
    full, and a timeout that [sleep] accepts, the loop never ends: after
    any number of tests it is still running and has slept once per
    test. *)
Theorem push_with_timeout_retries_forever (fuel : nat)
  (p_item : PrioritizedItem) (timeout : Z) (w : World Q) :
  0 <= timeout ->
  queue_full (queue w) = true ->
  (forall k q, queue_full q = true ->
               queue_full (other_threads w k q) = true) ->
  fst (push_item_to_queue_with_timeout fuel p_item (-1) timeout w)
  = Returned None
  /\ slept (snd (push_item_to_queue_with_timeout fuel p_item (-1) timeout w))
     = slept w ++ replicate fuel timeout.
Proof.
  intros Ht Hq Hkeep.
  destruct (wait_forever timeout queue_full (other_threads w) Ht
              (fun q Hq' => Hq') Hkeep fuel 0 w eq_refl Hq) as [Hr Hs].
  unfold push_item_to_queue_with_timeout, bind.
  destruct (wait_for_space fuel (-1) timeout 0 w) as [[[n|]|e] w'];
    cbn in *; try discriminate.
  split; [reflexivity|exact Hs].
Qed.

End SchedulerFacts.

(** ** The scheduler on sample worlds *)

Section SchedulerSamples.
Import Scheduler.

Lemma post_push_without_hash_witness :
  p_hash hashless_item = None
  /\ fst (post_push hashless_item (world_of (queue_of 2 []) [] [] []))
     = Returned tt.
Proof.
  split; [reflexivity|].
  apply (post_push_without_hash hashless_item
           (world_of (queue_of 2 []) [] [] [])).
  reflexivity.
Defined.

Lemma post_pop_spec_witness :
  nth_fault 0 (world_of (queue_of 2 []) [stored_task] [] []) <> RaisesError
  /\ task_rows (store (snd (post_pop sample_item
                             (world_of (queue_of 2 []) [stored_task] [] []))))
     = [{| t_id := "0b1e6a0c"; t_scheduler_id := "boefje-org-1";
           t_type := "boefje"; t_p_item := sample_item;
           t_status := DISPATCHED; t_job_id := Some "6d1f03b2";
           t_created_at := 1699999990000000;
           t_modified_at := 1699999990000000 |}].
Proof.
  assert (Hn : forall k, nth_fault k (world_of (queue_of 2 []) [stored_task] [] [])
                         <> RaisesError).
  { intros [|[|k]]; vm_compute; discriminate. }
  split; [apply Hn|].
  pose proof (post_pop_spec sample_item
                (world_of (queue_of 2 []) [stored_task] [] []) (Hn O)) as Hs.
  change (lookup_task (p_id sample_item)
            (world_of (queue_of 2 []) [stored_task] [] []))
    with (Some stored_task) in Hs.
  destruct Hs as (_ & _ & Hs). destruct (Hs (Hn 1%nat)) as (_ & Hrows & _).
  rewrite Hrows. reflexivity.
Defined.

Lemma post_push_updates_in_place_witness :
  p_hash sample_item = Some "9f2c"
  /\ task_count (p_id sample_item)
       (snd (post_push sample_item
          (snd (post_push sample_item (world_of (queue_of 2 []) [] [] [])))))
     = 1%nat.
Proof.
  split; [reflexivity|].
  pose proof (post_push_updates_in_place sample_item "9f2c"
                (world_of (queue_of 2 []) [] [] []) eq_refl) as Hp.
  cbv zeta in Hp. destruct Hp as (_ & _ & _ & Hfresh).
  destruct (Hfresh eq_refl eq_refl) as (_ & Htwo & _). exact Htwo.
Defined.

Lemma post_push_existing_task_overwritten_witness :
  p_hash sample_item = Some "9f2c"
  /\ lookup_task (p_id sample_item)
       (world_of (queue_of 2 []) [stored_task] [] []) = Some stored_task
  /\ nth_fault 0 (world_of (queue_of 2 []) [stored_task] [] []) <> RaisesError
  /\ job_rows (store (snd (post_push sample_item
                             (world_of (queue_of 2 []) [stored_task] [] []))))
     = [].
Proof.
  assert (Hn : nth_fault 0 (world_of (queue_of 2 []) [stored_task] [] [])
               <> RaisesError) by (vm_compute; discriminate).
  split; [reflexivity|]. split; [reflexivity|]. split; [exact Hn|].
  pose proof (post_push_existing_task_overwritten sample_item "9f2c"
                (world_of (queue_of 2 []) [stored_task] [] []) stored_task
                eq_refl eq_refl Hn) as Hp.
  cbv zeta in Hp. destruct Hp as (_ & _ & _ & _ & _ & _ & Hjobs & _).
  exact Hjobs.
Defined.

(** C4 (where the claim fails).  A store failure does abort a queue
    operation that had succeeded: with a store that raises on
    [update_task], [post_pop] raises, and [pop_item_from_queue] raises
    after the item has left the queue; with a store that raises on
    [get_task_by_id], [post_push] raises, and [push_item_to_queue]
    raises after the item has entered the queue. *)
Lemma store_failure_aborts_queue_operation :
  fst (post_pop sample_item
         (world_of (queue_of 2 []) [stored_task] [] [NoFault; RaisesError]))
  = Raised StorageError
  /\ fst (pop_item_from_queue None
            (world_of (queue_of 2 [sample_item]) [stored_task] []
               [NoFault; RaisesError]))
     = Raised StorageError
  /\ lq_items (queue (snd (pop_item_from_queue None
                             (world_of (queue_of 2 [sample_item])
                                [stored_task] [] [NoFault; RaisesError]))))
     = []
  /\ fst (post_push sample_item
            (world_of (queue_of 2 []) [] [] [RaisesError]))
     = Raised StorageError
  /\ fst (push_item_to_queue sample_item
            (world_of (queue_of 2 []) [] [] [RaisesError]))
     = Raised StorageError
  /\ lq_items (queue (snd (push_item_to_queue sample_item
                             (world_of (queue_of 2 []) [] [] [RaisesError]))))
     = [sample_item].
Proof. vm_compute. repeat split. Qed.

Lemma post_push_absorbs_job_failures_witness :
  nth_fault 0 (world_of (queue_of 2 []) [] []
                 [NoFault; NoFault; NoFault; RaisesError]) <> RaisesError
  /\ nth_fault 1 (world_of (queue_of 2 []) [] []
                    [NoFault; NoFault; NoFault; RaisesError]) <> RaisesError
  /\ nth_fault 2 (world_of (queue_of 2 []) [] []
                    [NoFault; NoFault; NoFault; RaisesError]) <> RaisesError
  /\ nth_fault 3 (world_of (queue_of 2 []) [] []
                    [NoFault; NoFault; NoFault; RaisesError]) <> YieldsNone
  /\ fst (post_push sample_item
            (world_of (queue_of 2 []) [] []
               [NoFault; NoFault; NoFault; RaisesError]))
     = Returned tt.
Proof.
  assert (H0 : nth_fault 0 (world_of (queue_of 2 []) [] []
                 [NoFault; NoFault; NoFault; RaisesError]) <> RaisesError)
    by (vm_compute; discriminate).
  assert (H1 : nth_fault 1 (world_of (queue_of 2 []) [] []
                 [NoFault; NoFault; NoFault; RaisesError]) <> RaisesError)
    by (vm_compute; discriminate).
  assert (H2 : nth_fault 2 (world_of (queue_of 2 []) [] []
                 [NoFault; NoFault; NoFault; RaisesError]) <> RaisesError)
    by (vm_compute; discriminate).
  assert (H3 : nth_fault 3 (world_of (queue_of 2 []) [] []
                 [NoFault; NoFault; NoFault; RaisesError]) <> YieldsNone)
    by (vm_compute; discriminate).
  repeat (split; [assumption|]).
  exact (proj1 (post_push_absorbs_job_failures sample_item _ H0 H1 H2 H3)).
Defined.

(** C6 (the code departs from the claim).  The queue holds one item and
    is full; a consumer empties it during the first sleep.  With
    [max_tries = 1] the loop sleeps once, finds space and ends, and the
    method then raises [QueueFullError] although the queue has space: the
    item is not pushed. *)
Theorem push_with_timeout_raises_despite_space :
  fst (push_item_to_queue_with_timeout 3 sample_item 1 1
         (world_with_consumer (queue_of 1 [other_item])))
  = Raised QueueFullError
  /\ slept (snd (push_item_to_queue_with_timeout 3 sample_item 1 1
                   (world_with_consumer (queue_of 1 [other_item]))))
     = [1]
  /\ fst (is_space_on_queue
            (snd (push_item_to_queue_with_timeout 3 sample_item 1 1
                    (world_with_consumer (queue_of 1 [other_item])))))
     = Returned true
  /\ lq_items (queue (snd (push_item_to_queue_with_timeout 3 sample_item 1 1
                             (world_with_consumer (queue_of 1 [other_item])))))
     = [].
Proof. vm_compute. repeat split. Qed.

(** A batch in which the second item repeats the hash of the first: it
    is skipped and the third item is pushed. *)
Example batch_skips_duplicate :
  let r := push_items_to_queue [sample_item; sample_item; other_item]
             (world_of (queue_of 5 []) [] [] []) in
  fst r = Returned tt
  /\ lq_items (queue (snd r)) = [sample_item; other_item]
  /\ map t_id (task_rows (store (snd r))) = [p_id sample_item; p_id other_item]
  /\ map level (logs (snd r)) = [DEBUG; WARNING; DEBUG; DEBUG].
Proof. vm_compute. repeat split. Qed.

(** A batch in which the store raises under the first item: the batch
    stops there. *)
Example batch_aborts_on_store_error :
  let r := push_items_to_queue [sample_item; other_item]
             (world_of (queue_of 5 []) [] [] [RaisesError]) in
  fst r = Raised StorageError
  /\ lq_items (queue (snd r)) = [sample_item]
  /\ map level (logs (snd r)) = [DEBUG; ERROR].
Proof. vm_compute. repeat split. Qed.

(** With one more try allowed, the same wait ends in a push. *)
Example push_with_timeout_waits :
  let r := push_item_to_queue_with_timeout 4 sample_item 2 1
             (world_with_consumer (queue_of 1 [other_item])) in
  fst r = Returned (Some tt)
  /\ slept (snd r) = [1]
  /\ lq_items (queue (snd r)) = [sample_item].
Proof. vm_compute. repeat split. Qed.
(** *** More sample runs *)

Lemma post_push_new_task_new_job_witness :
  lookup_job "9f2c" (world_of (queue_of 2 []) [] [] []) = None
  /\ lookup_job "9f2c"
       (snd (post_push sample_item (world_of (queue_of 2 []) [] [] [])))
     = Some (new_job sample_item "9f2c" (world_of (queue_of 2 []) [] [] [])).
Proof.
  split; [reflexivity|].
  destruct (post_push_new_task_new_job sample_item "9f2c"
              (world_of (queue_of 2 []) [] [] [])
              eq_refl eq_refl eq_refl eq_refl) as (_ & _ & Hj & _).
  exact Hj.
Defined.

Lemma post_push_new_task_existing_job_witness :
  lookup_job "9f2c" (world_of (queue_of 2 []) [] [stored_job] [])
  = Some stored_job
  /\ lookup_job "9f2c"
       (snd (post_push sample_item
               (world_of (queue_of 2 []) [] [stored_job] [])))
     = Some (set_enabled true stored_job).
Proof.
  split; [reflexivity|].
  destruct (post_push_new_task_existing_job sample_item "9f2c"
              (world_of (queue_of 2 []) [] [stored_job] []) stored_job
              eq_refl eq_refl eq_refl eq_refl) as (_ & _ & Hj & _).
  exact Hj.
Defined.

Lemma push_item_to_queue_rejected_witness :
  fst (push_item_to_queue sample_item
         (world_of (queue_of 1 [other_item]) [] [] []))
  = Raised QueueFullError
  /\ store (snd (push_item_to_queue sample_item
                   (world_of (queue_of 1 [other_item]) [] [] [])))
     = store (world_of (queue_of 1 [other_item]) [] [] []).
Proof.
  assert (Hp : push sample_item
                 (queue (world_of (queue_of 1 [other_item]) [] [] []))
               = (Raised QueueFullError, queue_of 1 [other_item]))
    by (vm_compute; reflexivity).
  destruct (push_item_to_queue_rejected sample_item
              (world_of (queue_of 1 [other_item]) [] [] [])
              QueueFullError (queue_of 1 [other_item]) Hp)
    as (Hr & _ & Hs & _).
  split; [exact Hr|exact Hs].
Defined.

Lemma push_item_to_queue_persists_witness :
  lookup_task (p_id sample_item) (world_of (queue_of 2 []) [] [] []) = None
  /\ fst (push_item_to_queue sample_item (world_of (queue_of 2 []) [] [] []))
     = Returned tt.
Proof.
  split; [reflexivity|].
  assert (Hp : push sample_item (queue (world_of (queue_of 2 []) [] [] []))
               = (Returned tt, queue_of 2 [sample_item]))
    by (vm_compute; reflexivity).
  destruct (push_item_to_queue_persists sample_item "9f2c"
              (world_of (queue_of 2 []) [] [] []) (queue_of 2 [sample_item])
              Hp eq_refl eq_refl eq_refl) as (Hr & _).
  exact Hr.
Defined.

Lemma push_items_to_queue_never_raises_queue_error_witness :
  fst (push_items_to_queue [sample_item]
         (world_of (queue_of 2 []) [] [] [RaisesError]))
  = Raised StorageError
  /\ StorageError <> QueueFullError.
Proof.
  assert (Hr : fst (push_items_to_queue [sample_item]
                      (world_of (queue_of 2 []) [] [] [RaisesError]))
               = Raised StorageError) by (vm_compute; reflexivity).
  split; [exact Hr|].
  destruct (push_items_to_queue_never_raises_queue_error [sample_item]
              (world_of (queue_of 2 []) [] [] [RaisesError]) StorageError Hr)
    as (_ & Hq & _).
  exact Hq.
Defined.

Lemma push_with_timeout_no_tries_witness :
  push_item_to_queue_with_timeout 1 sample_item (-2) 1
    (world_of (queue_of 2 []) [] [] [])
  = (Raised QueueFullError, world_of (queue_of 2 []) [] [] []).
Proof.
  apply (push_with_timeout_no_tries 0 sample_item (-2) 1
           (world_of (queue_of 2 []) [] [] [])); lia.
Defined.

Lemma push_with_timeout_space_at_once_witness :
  queue_full (queue_of 2 []) = false
  /\ fst (push_item_to_queue_with_timeout 1 sample_item 3 1
            (world_of (queue_of 2 []) [] [] []))
     = Returned (Some tt).
Proof.
  assert (Hfree : queue_full (queue_of 2 []) = false) by reflexivity.
  split; [exact Hfree|].
  rewrite (push_with_timeout_space_at_once 0 sample_item 3 1
             (world_of (queue_of 2 []) [] [] []) Hfree
             (or_introl eq_refl)).
  vm_compute. reflexivity.
Defined.

Lemma push_with_timeout_terminates_witness :
  exists k : nat,
    Z.of_nat k <= 2
    /\ slept (snd (push_item_to_queue_with_timeout 3 sample_item 2 1
                     (world_of (queue_of 1 [other_item]) [] [] [])))
       = replicate k 1.
Proof.
  destruct (push_with_timeout_terminates sample_item 2 1
              (world_of (queue_of 1 [other_item]) [] [] [])
              ltac:(lia) ltac:(lia)) as (k & Hk & Hs & _).
  exists k. split; [exact Hk|exact Hs].
Defined.

Lemma push_with_timeout_retries_forever_witness :
  queue_full (queue_of 1 [other_item]) = true
  /\ fst (push_item_to_queue_with_timeout 5 sample_item (-1) 1
            (world_of (queue_of 1 [other_item]) [] [] []))
     = Returned None.
Proof.
  assert (Hfull : queue_full (queue_of 1 [other_item]) = true)
    by reflexivity.
  split; [exact Hfull|].
  destruct (push_with_timeout_retries_forever 5 sample_item 1
              (world_of (queue_of 1 [other_item]) [] [] [])
              ltac:(lia) Hfull (fun _ _ Hq => Hq)) as (Hr & _).
  exact Hr.
Defined.

End SchedulerSamples.

(** ** The object-graph connector *)

Section OctopoesFacts.
Import Octopoes.
Context {Raw OOI : Type} (self : Service Raw OOI).

Lemma range_pages c :
  range 0 c 1000 = map (fun k => 1000 * Z.of_nat k) (seq 0 (page_count c)).
Proof.
  unfold range, page_count.
  replace (c - 0 + 1000 - 1) with (c + 999) by lia.
  apply map_ext. intros k. lia.
Qed.


Ltac same_dict :=
  apply map_eq; intros key;
  repeat (rewrite lookup_insert; case_decide; [subst; try reflexivity; try congruence|]);
  try reflexivity; try congruence.

(** The dict of a page request, however many offsets were written into
    it before. *)
Lemma page_params org types sl (p : gmap string ParamValue) k :
  (forall v, <["offset" := v]> p
             = <["offset" := v]> (<["limit" := PInt 1000]>
                 (params (count_request self org types sl)))) ->
  <["offset" := PInt (1000 * Z.of_nat k)]> p
  = params (page_request self org types sl k).
Proof.
  intros ->. unfold count_request, page_request; cbn [params].
  same_dict.
Qed.

Lemma count_params types sl :
  <["limit" := PInt 1]> (<["offset" := PInt 0]>
      (<["scan_level" := PSet (list_to_set (default [] sl))]>
        (<["types" := PList types]> (∅ : gmap string ParamValue))))
  = <["types" := PList types]>
      (<["scan_level" := PSet (list_to_set (default [] sl))]>
        (<["offset" := PInt 0]> (<["limit" := PInt 1]> ∅))).
Proof. same_dict. Qed.






(** *** Empty and failing runs *)

(** X16. When the count request answers a count of zero or less,
    [get_objects_by_object_types] returns the empty list and the count
    request is the only one sent. *)
Theorem get_objects_nothing_to_fetch (organisation_id : string)
  (object_types : list string) (scan_level : option (list Z))
  (n0 : Net) (first : Response Raw) (c : Z) :
  transport self (sent n0)
    (count_request self organisation_id object_types scan_level)
  = Returned first ->
  count first = Some c ->
  c <= 0 ->
  get_objects_by_object_types self organisation_id object_types scan_level n0
  = (Returned [],
     {| sent := sent n0
                ++ [count_request self organisation_id object_types scan_level];
        logged := logged n0 |}).
Proof.
  intros Hfirst Hcount Hc.
  unfold get_objects_by_object_types, exception_handler, try_except,
    get_objects_by_object_types_body.
  unfold bind at 1, get. rewrite count_params.
  change {| url := host self +:+ "/" +:+ organisation_id +:+ "/objects";
            params := <["types" := PList object_types]>
              (<["scan_level" := PSet (list_to_set (default [] scan_level))]>
                 (<["offset" := PInt 0]> (<["limit" := PInt 1]> ∅))) |}
    with (count_request self organisation_id object_types scan_level).
  rewrite Hfirst, Hcount, range_pages.
  assert (Hp : page_count c = O).
  { unfold page_count.
    assert ((c + 999) / 1000 < 1) by (apply Z.div_lt_upper_bound; lia).
    lia. }
  rewrite Hp. reflexivity.
Qed.

(** X17. When the answer to the count request has no [count], the body
    of [get_objects_by_object_types] raises [TypeError] at [range] and
    the count request is the only one sent. *)
Theorem get_objects_without_count (organisation_id : string)
  (object_types : list string) (scan_level : option (list Z))
  (n0 : Net) (first : Response Raw) :
  transport self (sent n0)
    (count_request self organisation_id object_types scan_level)
  = Returned first ->
  count first = None ->
  get_objects_by_object_types_body self organisation_id object_types
    scan_level n0
  = (Raised TypeError,
     {| sent := sent n0
                ++ [count_request self organisation_id object_types scan_level];
        logged := logged n0 |}).
Proof.
  intros Hfirst Hcount.
  unfold get_objects_by_object_types_body.
  unfold bind at 1, get. rewrite count_params.
  change {| url := host self +:+ "/" +:+ organisation_id +:+ "/objects";
            params := <["types" := PList object_types]>
              (<["scan_level" := PSet (list_to_set (default [] scan_level))]>
                 (<["offset" := PInt 0]> (<["limit" := PInt 1]> ∅))) |}
    with (count_request self organisation_id object_types scan_level).
  rewrite Hfirst, Hcount. reflexivity.
Qed.

(** The loop of lines 44-47 when page [k0 + j] fails, in the transport
    or in the construction of its objects, after [j] pages served. *)
Lemma fetch_pages_fails org types sl (page : nat -> list OOI) (n0 : Net)
  (e : Exn) (rest : list Z) :
  forall (j k0 : nat) (p : gmap string ParamValue) (n : Net),
  (forall v, <["offset" := v]> p
             = <["offset" := v]> (<["limit" := PInt 1000]>
                 (params (count_request self org types sl)))) ->
  sent n = sent n0 ++ count_request self org types sl
                      :: map (page_request self org types sl) (seq 0 k0) ->
  (forall k, (k0 <= k < k0 + j)%nat ->
     exists resp,
       transport self
         (sent n0 ++ count_request self org types sl
                     :: map (page_request self org types sl) (seq 0 k))
         (page_request self org types sl k) = Returned resp
       /\ make_all self (default [] (items resp)) = Returned (page k)) ->
  (transport self
     (sent n0 ++ count_request self org types sl
                 :: map (page_request self org types sl) (seq 0 (k0 + j)))
     (page_request self org types sl (k0 + j)) = Raised e
   \/ exists resp,
        transport self
          (sent n0 ++ count_request self org types sl
                      :: map (page_request self org types sl) (seq 0 (k0 + j)))
          (page_request self org types sl (k0 + j)) = Returned resp
        /\ make_all self (default [] (items resp)) = Raised e) ->
  forall oois,
  fetch_pages self (host self +:+ "/" +:+ org +:+ "/objects")
    (map (fun k => 1000 * Z.of_nat k) (seq k0 (S j)) ++ rest) p oois n
  = (Raised e,
     {| sent := sent n0 ++ count_request self org types sl
                  :: map (page_request self org types sl) (seq 0 (S (k0 + j)));
        logged := logged n |}).
Proof.
  induction j as [|j IH]; intros k0 p n Hp Hsent Hserve Hfail oois.
  - rewrite Nat.add_0_r in *.
    remember (seq 0 (S k0)) as upto eqn:Hupto.
    cbn [seq map app fetch_pages].
    rewrite (page_params org types sl p k0 Hp).
    unfold bind at 1, get. rewrite Hsent.
    change {| url := host self +:+ "/" +:+ org +:+ "/objects";
              params := params (page_request self org types sl k0) |}
      with (page_request self org types sl k0).
    subst upto. rewrite seq_S, map_app, <- app_assoc. cbn [map app Nat.add].
    destruct Hfail as [-> | (resp & -> & Hmake)]; [reflexivity|].
    unfold bind, lift. rewrite Hmake. reflexivity.
  - remember (seq 0 (S (k0 + S j))) as upto eqn:Hupto.
    change (seq k0 (S (S j))) with (k0 :: seq (S k0) (S j)).
    cbn [map app fetch_pages].
    destruct (Hserve k0 ltac:(lia)) as (resp & Hresp & Hmake).
    rewrite (page_params org types sl p k0 Hp).
    unfold bind at 1, get. rewrite Hsent.
    change {| url := host self +:+ "/" +:+ org +:+ "/objects";
              params := params (page_request self org types sl k0) |}
      with (page_request self org types sl k0).
    rewrite Hresp. unfold bind at 1, lift. rewrite Hmake.
    subst upto. replace (S (k0 + S j)) with (S (S k0 + j)) by lia.
    apply (IH (S k0) _
             {| sent := (sent n0 ++ count_request self org types sl
                           :: map (page_request self org types sl) (seq 0 k0))
                        ++ [page_request self org types sl k0];
                logged := logged n |}).
    + intros v. unfold page_request, count_request; cbn [params]. same_dict.
    + cbn [sent]. rewrite seq_S, map_app, <- app_assoc. reflexivity.
    + intros k Hk. apply Hserve. lia.
    + replace (S k0 + j)%nat with (k0 + S j)%nat by lia. exact Hfail.
Qed.

(** X18. When the pages before page [bad] are served and page [bad]
    fails, in the transport or in the construction of an [OOI], the
    body of [get_objects_by_object_types] raises that exception: the
    objects of the earlier pages are dropped and no later page is
    requested. *)
Theorem get_objects_page_failure (organisation_id : string)
  (object_types : list string) (scan_level : option (list Z))
  (n0 : Net) (first : Response Raw) (c : Z) (page : nat -> list OOI)
  (bad : nat) (e : Exn) :
  transport self (sent n0)
    (count_request self organisation_id object_types scan_level)
  = Returned first ->
  count first = Some c ->
  (bad < page_count c)%nat ->
  (forall k, (k < bad)%nat ->
     exists resp,
       transport self
         (sent n0 ++ count_request self organisation_id object_types scan_level
                     :: map (page_request self organisation_id object_types
                               scan_level) (seq 0 k))
         (page_request self organisation_id object_types scan_level k)
       = Returned resp
       /\ make_all self (default [] (items resp)) = Returned (page k)) ->
  (transport self
     (sent n0 ++ count_request self organisation_id object_types scan_level
                 :: map (page_request self organisation_id object_types
                           scan_level) (seq 0 bad))
     (page_request self organisation_id object_types scan_level bad)
   = Raised e
   \/ exists resp,
        transport self
          (sent n0 ++ count_request self organisation_id object_types scan_level
                      :: map (page_request self organisation_id object_types
                                scan_level) (seq 0 bad))
          (page_request self organisation_id object_types scan_level bad)
        = Returned resp
        /\ make_all self (default [] (items resp)) = Raised e) ->
  get_objects_by_object_types_body self organisation_id object_types
    scan_level n0
  = (Raised e,
     {| sent := sent n0
                ++ count_request self organisation_id object_types scan_level
                   :: map (page_request self organisation_id object_types
                             scan_level) (seq 0 (S bad));
        logged := logged n0 |}).
Proof.
  intros Hfirst Hcount Hbad Hserve Hfail.
  unfold get_objects_by_object_types_body.
  unfold bind at 1, get. rewrite count_params.
  change {| url := host self +:+ "/" +:+ organisation_id +:+ "/objects";
            params := <["types" := PList object_types]>
              (<["scan_level" := PSet (list_to_set (default [] scan_level))]>
                 (<["offset" := PInt 0]> (<["limit" := PInt 1]> ∅))) |}
    with (count_request self organisation_id object_types scan_level).
  rewrite Hfirst, Hcount, range_pages.
  replace (page_count c) with (S bad + (page_count c - S bad))%nat by lia.
  rewrite seq_app, map_app.
  rewrite (fetch_pages_fails organisation_id object_types scan_level page n0 e
             _ bad 0 _
             {| sent := sent n0 ++ [count_request self organisation_id
                                      object_types scan_level];
                logged := logged n0 |}).
  - reflexivity.
  - intros v. reflexivity.
  - reflexivity.
  - intros k Hk. apply Hserve. lia.
  - exact Hfail.
Qed.

End OctopoesFacts.

(** ** The health check of the connector *)

Section OctopoesHealth.
Import Octopoes.

Lemma is_healthy_all_run probe self_host :
  forall (orgs : list Organisation) (probes : list (string * string)),
  (forall org hist, In org orgs ->
     probe hist self_host (health_path org) = Returned true) ->
  is_healthy probe self_host orgs probes
  = (Returned true,
     probes ++ map (fun org => (self_host, health_path org)) orgs).
Proof.
  induction orgs as [|org orgs IH]; intros probes Hall.
  - cbn. rewrite app_nil_r. reflexivity.
  - cbn [is_healthy map]. unfold bind at 1.
    rewrite (Hall org probes (or_introl eq_refl)). cbn [negb].
    rewrite IH by (intros; apply Hall; right; assumption).
    rewrite <- app_assoc. reflexivity.
Qed.

(** X19. [Octopoes.is_healthy] probes the organisations in order: when
    every probe answers true it returns true after one probe per
    organisation; at the first probe that answers false it returns false
    and probes no later organisation.  The path probed is the
    organisation id followed by the text [None], since [health_endpoint]
    is [None]. *)
Theorem is_healthy_outcomes
  (probe : list (string * string) -> string -> string -> Outcome bool)
  (self_host : string) (probes : list (string * string)) :
  (forall orgs,
     (forall org hist, In org orgs ->
        probe hist self_host (health_path org) = Returned true) ->
     is_healthy probe self_host orgs probes
     = (Returned true,
        probes ++ map (fun org => (self_host, health_path org)) orgs))
  /\ (forall pre bad post,
        (forall org hist, In org pre ->
           probe hist self_host (health_path org) = Returned true) ->
        (forall hist, probe hist self_host (health_path bad) = Returned false) ->
        is_healthy probe self_host (pre ++ bad :: post) probes
        = (Returned false,
           probes ++ map (fun org => (self_host, health_path org))
                       (pre ++ [bad])))
  /\ (forall org, health_path org = "/" +:+ org_id org +:+ "None").
Proof.
  split; [intros orgs; apply is_healthy_all_run|]. split; [|reflexivity].
  intros pre. revert probes.
  induction pre as [|org pre IH]; intros probes bad post Hpre Hbad.
  - cbn [app is_healthy map]. unfold bind. rewrite Hbad. reflexivity.
  - cbn [app is_healthy map]. unfold bind at 1.
    rewrite (Hpre org probes (or_introl eq_refl)). cbn [negb].
    rewrite IH by (first [exact Hbad | intros; apply Hpre; right; assumption]).
    rewrite <- app_assoc. reflexivity.
Qed.

End OctopoesHealth.

Section OctopoesSamples.
Import Octopoes.



Lemma get_objects_nothing_to_fetch_witness :
  get_objects_by_object_types (paging_server []) "org-1" ["Hostname"]
    (Some [1; 2]) idle
  = (Returned [],
     {| sent := [count_request (paging_server []) "org-1" ["Hostname"]
                   (Some [1; 2])];
        logged := [] |}).
Proof.
  apply (get_objects_nothing_to_fetch (paging_server []) "org-1" ["Hostname"]
           (Some [1; 2]) idle {| count := Some 0; items := Some [] |} 0);
    [vm_compute; reflexivity | reflexivity | lia].
Defined.

Lemma get_objects_without_count_witness :
  fst (get_objects_by_object_types_body countless_server "org-1" ["Hostname"]
         (Some [1; 2]) idle)
  = Raised TypeError.
Proof.
  rewrite (get_objects_without_count countless_server "org-1" ["Hostname"]
             (Some [1; 2]) idle {| count := None; items := Some [] |}
             eq_refl eq_refl).
  reflexivity.
Defined.

Lemma get_objects_page_failure_witness :
  fst (get_objects_by_object_types_body (flaky_server (numbered 2500) 1000)
         "org-1" ["Hostname"] (Some [1; 2]) idle)
  = Raised HTTPError
  /\ length (sent (snd (get_objects_by_object_types_body
                          (flaky_server (numbered 2500) 1000)
                          "org-1" ["Hostname"] (Some [1; 2]) idle)))
     = 3%nat.
Proof.
  rewrite (get_objects_page_failure (flaky_server (numbered 2500) 1000)
             "org-1" ["Hostname"] (Some [1; 2]) idle
             {| count := Some 2500; items := Some [0] |} 2500
             (fun _ => numbered 1000) 1 HTTPError).
  - split; reflexivity.
  - vm_compute. reflexivity.
  - reflexivity.
  - vm_compute. lia.
  - intros [|k] Hk; [|lia].
    exists {| count := Some 2500; items := Some (numbered 1000) |}.
    split; vm_compute; reflexivity.
  - left. vm_compute. reflexivity.
Defined.

Lemma is_healthy_outcomes_witness :
  is_healthy (probe_but "org-2") "http://octopoes:80"
    [{| org_id := "org-1" |}; {| org_id := "org-2" |}; {| org_id := "org-3" |}]
    []
  = (Returned false,
     [("http://octopoes:80", "/org-1None");
      ("http://octopoes:80", "/org-2None")]).
Proof.
  destruct (is_healthy_outcomes (probe_but "org-2") "http://octopoes:80" [])
    as (_ & Hstop & _).
  apply (Hstop [{| org_id := "org-1" |}] {| org_id := "org-2" |}
           [{| org_id := "org-3" |}]).
  - intros org hist [<-|[]]. reflexivity.
  - intros hist. reflexivity.
Defined.

End OctopoesSamples.

(** ** The scheduler client of rocky *)

Section RockyFacts.
Import Rocky.
Context {T : Type} (env : Env T).

Ltac run_client :=
  unfold schedule_task, get_details_of_task, get_list_of_tasks_lazy,
    get_scheduler_client, health, push_task, get_task_details, list_tasks,
    catching, and_then, send, raise_for_status, pure, parse_raw,
    add_message, throw, done, health_request, push_request, task_request,
    tasks_request, is_error_status, with_sent, with_message in *; cbn in *.

Lemma get_scheduler_client_run (s : Web) :
  snd (get_scheduler_client env s) = with_sent [health_request env] s /\
  match fst (get_scheduler_client env s) with
  | Ok _ => health_served env s
  | Raise e =>
      match session env (sent s) (health_request env) with
      | Answered res =>
          if is_error_status (status_code res)
          then e = HTTPError (status_code res)
          else e = ValidationError
      | ConnectionFailed => e = Scheduler SchedulerError
      | RequestFailed => e = RequestException
      end
  end.
Proof.
  unfold health_served. run_client.
  destruct (session env (sent s) _) as [res| |]; cbn; auto.
  destruct ((400 <=? status_code res) && (status_code res <? 600)) eqn:Hc;
    cbn; auto.
  destruct (parse_health env (content res)) as [[]|] eqn:Hp; cbn; auto.
  split; [reflexivity|]. exists res. rewrite Hc. auto.
Qed.

Lemma get_scheduler_client_served (s : Web) :
  health_served env s ->
  get_scheduler_client env s = (Ok tt, with_sent [health_request env] s).
Proof.
  intros (res & Hs & Hc & Hp). run_client.
  rewrite Hs; cbn. rewrite Hc; cbn. rewrite Hp. reflexivity.
Qed.

(** X20. [SchedulerClient.push_task] sends one POST to
    [<base>/queues/<queue>/push] and adds no message.  It returns on a
    status outside 400..599; on 429, 400 and 409 it raises
    [TooManyRequestsError], [BadRequestError] and [ConflictError], on
    another status of 400..599 [SchedulerError]; a [ConnectionError] is
    not converted. *)
Theorem push_task_outcomes (queue_name : string) (item : QueuePrioritizedItem)
  (s : Web) :
  push_task env queue_name item s
    = (match session env (sent s) (push_request env queue_name item) with
       | Answered res =>
           if is_error_status (status_code res)
           then Raise (Scheduler
                  (if status_code res =? 429 then TooManyRequestsError
                   else if status_code res =? 400 then BadRequestError
                   else if status_code res =? 409 then ConflictError
                   else SchedulerError))
           else Ok tt
       | ConnectionFailed => Raise ConnectionError
       | RequestFailed => Raise RequestException
       end,
       with_sent [push_request env queue_name item] s).
Proof.
  run_client.
  destruct (session env (sent s) _) as [res| |]; cbn; auto.
  destruct ((400 <=? status_code res) && (status_code res <? 600)); cbn; auto.
Qed.

Lemma describe_error (d : TaskData) (e : Error) :
  describe d = Raise e -> e = AttributeError.
Proof.
  unfold describe. destruct d; cbn;
    repeat match goal with
           | |- context [String.eqb ?a ?b] => destruct (String.eqb a b)
           end; congruence.
Qed.

Lemma push_task_keeps_messages (queue_name : string)
  (item : QueuePrioritizedItem) (s : Web) :
  messages (snd (push_task env queue_name item s)) = messages s.
Proof.
  run_client.
  destruct (session env (sent s) _) as [res| |]; cbn; auto.
  destruct ((400 <=? status_code res) && (status_code res <? 600)); cbn; auto.
Qed.

(** X21. [schedule_task] either returns, having added exactly one
    message, or raises, having added none; what it raises is never a
    [SchedulerError]. *)
Theorem schedule_task_one_message (organization_code : string)
  (task : QueuePrioritizedItem) (s : Web) :
  match schedule_task env organization_code task s with
  | (Ok _, s') => exists lv t, messages s' = messages s ++ [(lv, t)]
  | (Raise e, s') => messages s' = messages s /\ is_SchedulerError e = false
  end.
Proof.
  unfold schedule_task, and_then at 1, pure.
  destruct (describe (qp_data task)) as [[plugin_name input_ooi]|e] eqn:Hd.
  2:{ split; [reflexivity|]. apply describe_error in Hd. now subst. }
  unfold and_then.
  pose proof (get_scheduler_client_run s) as [Hm _].
  destruct (get_scheduler_client env s) as [[[]|e] s1]; cbn in Hm; subst s1.
  - pose proof (push_task_keeps_messages
                  (data_type (qp_data task) +:+ "-" +:+ organization_code)
                  task (with_sent [health_request env] s)) as Hm2.
    destruct (push_task env _ task _) as [[[]|e] s2]; cbn in Hm2.
    + unfold add_message; cbn. rewrite Hm2. eauto.
    + destruct e as [c| | | | | | |]; cbn;
        try (split; [congruence | reflexivity]).
      destruct c; unfold add_message; cbn; rewrite Hm2; eauto.
  - destruct e as [c| | | | | | |]; cbn;
      try (split; [congruence | reflexivity]).
    destruct c; unfold add_message; cbn; eauto.
Qed.

(** X22. With a healthy scheduler, [schedule_task] sends the health
    request and then the push to queue [<type>-<organization>].  When
    the push is answered it returns with one message: the success text
    on a status outside 400..599; on 429, 400 and 409 the text of the
    error followed by the failure sentence; on another error status the
    connectivity text.  When the push fails with a [ConnectionError] or
    another [requests] exception, that exception leaves [schedule_task]
    and no message is added. *)
Theorem schedule_task_reports (organization_code : string)
  (task : QueuePrioritizedItem) (plugin_name input_ooi : option string)
  (s : Web) :
  describe (qp_data task) = Ok (plugin_name, input_ooi) ->
  health_served env s ->
  let push :=
    push_request env (data_type (qp_data task) +:+ "-" +:+ organization_code)
      task in
  schedule_task env organization_code task s
  = match session env (sent s ++ [health_request env]) push with
    | Answered res =>
        (Ok tt,
         (if is_error_status (status_code res) then
            with_message ERROR
              (if status_code res =? 429
               then failed_text TooManyRequestsError task plugin_name input_ooi
               else if status_code res =? 400
               then failed_text BadRequestError task plugin_name input_ooi
               else if status_code res =? 409
               then failed_text ConflictError task plugin_name input_ooi
               else Translatable "Connectivity issues with Mula.")
          else with_message SUCCESS
                 (scheduled_text task plugin_name input_ooi))
           (with_sent [health_request env; push] s))
    | ConnectionFailed =>
        (Raise ConnectionError, with_sent [health_request env; push] s)
    | RequestFailed =>
        (Raise RequestException, with_sent [health_request env; push] s)
    end.
Proof.
  intros Hd Hh push. subst push.
  unfold schedule_task, and_then at 1, pure. rewrite Hd.
  unfold and_then at 1. rewrite (get_scheduler_client_served s Hh).
  unfold push_task, catching, and_then, send, raise_for_status, throw, done,
    add_message, with_message, with_sent, failed_text, scheduled_text,
    error_of_status, push_request, is_error_status.
  cbn [sent messages]. rewrite <- app_assoc; cbn [app].
  destruct (session env _ _) as [res| |]; [|reflexivity|reflexivity].
  destruct ((400 <=? status_code res) && (status_code res <? 600)); cbn;
    [|reflexivity].
  destruct (status_code res =? 429); [reflexivity|].
  destruct (status_code res =? 400); [reflexivity|].
  destruct (status_code res =? 409); reflexivity.
Qed.

(** X23. When the health check does not succeed, [schedule_task] sends
    no push.  A [ConnectionError] gives the connectivity message; an
    error status of the health endpoint, an unparsable health body and
    another [requests] exception leave [schedule_task] as [HTTPError],
    [ValidationError] and that exception, with no message. *)
Theorem schedule_task_unhealthy (organization_code : string)
  (task : QueuePrioritizedItem) (plugin_name input_ooi : option string)
  (s : Web) :
  describe (qp_data task) = Ok (plugin_name, input_ooi) ->
  ~ health_served env s ->
  schedule_task env organization_code task s
    = match session env (sent s) (health_request env) with
      | ConnectionFailed =>
          (Ok tt,
           with_message ERROR (Translatable "Connectivity issues with Mula.")
             (with_sent [health_request env] s))
      | RequestFailed =>
          (Raise RequestException, with_sent [health_request env] s)
      | Answered res =>
          (Raise (if is_error_status (status_code res)
                  then HTTPError (status_code res) else ValidationError),
           with_sent [health_request env] s)
      end.
Proof.
  intros Hd Hh.
  unfold schedule_task, and_then at 1, pure. rewrite Hd.
  unfold and_then.
  pose proof (get_scheduler_client_run s) as [Hs He].
  destruct (get_scheduler_client env s) as [[[]|e] s1]; cbn in Hs, He; subst s1.
  - contradiction.
  - destruct (session env (sent s) (health_request env)) as [res| |];
      [destruct (is_error_status (status_code res))| |]; subst e; reflexivity.
Qed.

(** X24. With a healthy scheduler, [get_details_of_task] requests
    [<base>/tasks/<task_id>], the text [None] standing for a [task_id]
    of [None]: an error status raises [Http404] with no message; a
    [ConnectionError] returns [None] with the connectivity message;
    otherwise the parsed task is returned. *)
Theorem get_details_of_task_outcomes (task_id : option string) (s : Web) :
  health_served env s ->
  get_details_of_task env task_id s
    = match session env (sent s ++ [health_request env])
              (task_request env task_id) with
      | Answered res =>
          (if is_error_status (status_code res) then Raise Http404
           else match parse_task env (content res) with
                | Some t => Ok (Some t)
                | None => Raise ValidationError
                end,
           with_sent [health_request env; task_request env task_id] s)
      | ConnectionFailed =>
          (Ok None,
           with_message ERROR (Translatable "Connectivity issues with Mula.")
             (with_sent [health_request env; task_request env task_id] s))
      | RequestFailed =>
          (Raise RequestException,
           with_sent [health_request env; task_request env task_id] s)
      end.
Proof.
  intros Hh. unfold get_details_of_task, catching, and_then.
  rewrite (get_scheduler_client_served s Hh).
  unfold fstr. run_client. rewrite <- app_assoc; cbn.
  destruct (session env _ _) as [res| |]; cbn; auto.
  destruct ((400 <=? status_code res) && (status_code res <? 600)); cbn; auto.
  destruct (parse_task env (content res)); cbn; auto.
Qed.

(** X25. [get_list_of_tasks_lazy] sends the health request and no other.
    When the health request is answered with a good status and a body
    that parses, it returns a [LazyTaskList] with no count cached whose
    keywords are [scheduler_id], [type], [status], [min_created_at],
    [max_created_at], [input_ooi], [plugin_id] and [boefje_name], in
    this order, with the arguments as values; on a [ConnectionError] it
    returns the empty list and adds the connectivity message; an error
    status, an unparsable body and another [requests] exception leave it
    as [HTTPError], [ValidationError] and that exception, with no
    message. *)
Theorem get_list_of_tasks_lazy_sends_no_task_request (scheduler_id : string)
  (task_type status min_created_at max_created_at input_ooi plugin_id
     boefje_name : option string) (s : Web) :
  get_list_of_tasks_lazy env scheduler_id task_type status min_created_at
    max_created_at input_ooi plugin_id boefje_name s
  = match session env (sent s) (health_request env) with
    | Answered res =>
        (if is_error_status (status_code res)
         then Raise (HTTPError (status_code res))
         else match parse_health env (content res) with
              | Some _ =>
                  Ok (Lazy
                        {| kwargs :=
                             [("scheduler_id", QStr (Some scheduler_id));
                              ("type", QStr task_type);
                              ("status", QStr status);
                              ("min_created_at", QStr min_created_at);
                              ("max_created_at", QStr max_created_at);
                              ("input_ooi", QStr input_ooi);
                              ("plugin_id", QStr plugin_id);
                              ("boefje_name", QStr boefje_name)];
                           _count := None |})
              | None => Raise ValidationError
              end,
         with_sent [health_request env] s)
    | ConnectionFailed =>
        (Ok EmptyList,
         with_message ERROR (Translatable "Connectivity issues with Mula.")
           (with_sent [health_request env] s))
    | RequestFailed =>
        (Raise RequestException, with_sent [health_request env] s)
    end.
Proof.
  unfold get_list_of_tasks_lazy, get_scheduler_client, health,
    get_lazy_task_list, catching, and_then, send, raise_for_status,
    parse_raw, add_message, throw, done, health_request, is_error_status,
    with_sent, with_message; cbn.
  destruct (session env (sent s) _) as [res| |]; cbn; auto.
  destruct ((400 <=? status_code res) && (status_code res <? 600)); cbn; auto.
  destruct (parse_health env (content res)) as [[]|]; cbn; auto.
Qed.

(** X26. A [count] that returned is cached: the first access of a list
    without a cached count sends one request with [limit=0], an access
    of a list with a cached count sends none, and every later access
    returns the same value without a request. *)
Theorem count_is_cached (l l' : LazyTaskList) (c : Z) (s s' : Web) :
  count_of env l s = (Ok (c, l'), s') ->
  (_count l = None ->
   sent s' = sent s ++ [tasks_request env (("limit", QInt 0) :: kwargs l)]) /\
  (forall c0, _count l = Some c0 -> c = c0 /\ s' = s) /\
  forall s2, count_of env l' s2 = (Ok (c, l'), s2).
Proof.
  unfold count_of. destruct (_count l) as [c0|] eqn:Hc.
  - unfold done. intros [= <- <- <-]. rewrite Hc.
    repeat split; try congruence; try (now intros c1 [= <-]).
  - destruct (has_key "limit" (kwargs l)); [discriminate|].
    run_client.
    destruct (session env (sent s) _) as [res| |]; cbn; try discriminate.
    destruct (parse_page env (content res)) as [p|]; cbn; try discriminate.
    intros [= <- <- <-]. cbn. repeat split; try discriminate.
Qed.

(** X27. [LazyTaskList.__getitem__] on a list whose keywords hold neither
    [limit] nor [offset]: a slice with a stop sends one request with
    [offset = start or 0] and [limit = stop - offset], an integer one
    with [offset = key] and [limit = 1]; the results of the parsed page
    are returned and its count replaces the cached one.  A slice without
    a stop and any other key raise [TypeError] and send nothing. *)
Theorem getitem_window (l : LazyTaskList) (key : Key) (s : Web) :
  has_key "limit" (kwargs l) = false ->
  has_key "offset" (kwargs l) = false ->
  getitem env l key s
    = match key with
      | Slice start (Some stop) _ =>
          let offset := default 0 start in
          let req := tasks_request env
                       (("limit", QInt (stop - offset))
                        :: ("offset", QInt offset) :: kwargs l) in
          (match session env (sent s) req with
           | Answered res =>
               match parse_page env (content res) with
               | Some p => Ok (results p, {| kwargs := kwargs l;
                                             _count := Some (count p) |})
               | None => Raise ValidationError
               end
           | ConnectionFailed => Raise (Scheduler SchedulerError)
           | RequestFailed => Raise RequestException
           end, with_sent [req] s)
      | Index i =>
          let req := tasks_request env
                       (("limit", QInt 1) :: ("offset", QInt i) :: kwargs l) in
          (match session env (sent s) req with
           | Answered res =>
               match parse_page env (content res) with
               | Some p => Ok (results p, {| kwargs := kwargs l;
                                             _count := Some (count p) |})
               | None => Raise ValidationError
               end
           | ConnectionFailed => Raise (Scheduler SchedulerError)
           | RequestFailed => Raise RequestException
           end, with_sent [req] s)
      | _ => (Raise TypeError, s)
      end.
Proof.
  intros Hl Ho. unfold getitem.
  destruct key as [start [stop|] step|i|]; cbn; try reflexivity.
  - unfold and_then at 1, pure. rewrite Hl, Ho; cbn.
    assert (Hoff : match start with
                   | Some z => if z =? 0 then 0 else z
                   | None => 0
                   end = default 0 start).
    { destruct start as [z|]; cbn; [|reflexivity].
      destruct (Z.eqb_spec z 0); congruence. }
    rewrite Hoff. run_client.
    destruct (session env (sent s) _) as [res| |]; cbn; auto.
    destruct (parse_page env (content res)); cbn; auto.
  - unfold and_then at 1, pure. rewrite Hl, Ho; cbn. run_client.
    destruct (session env (sent s) _) as [res| |]; cbn; auto.
    destruct (parse_page env (content res)); cbn; auto.
Qed.

End RockyFacts.

Section RockySamples.
Import Rocky.

Lemma schedule_task_reports_witness :
  schedule_task (scripted (answering 429)) "org-1" boefje_item fresh
  = (Ok tt,
     {| sent := [health_request (scripted (answering 429));
                 push_request (scripted (answering 429)) "boefje-org-1"
                   boefje_item];
        messages :=
          [(ERROR,
            failed_text TooManyRequestsError boefje_item (Some "DnsRecords")
              (Some "Hostname|internet|example.com"))] |}).
Proof.
  apply (schedule_task_reports (scripted (answering 429)) "org-1" boefje_item
           (Some "DnsRecords") (Some "Hostname|internet|example.com") fresh).
  - reflexivity.
  - exists {| status_code := 200; content := "healthy" |}.
    repeat split.
Defined.

Lemma schedule_task_unhealthy_witness :
  schedule_task (scripted (unhealthy 503)) "org-1" boefje_item fresh
  = (Raise (HTTPError 503),
     {| sent := [health_request (scripted (unhealthy 503))];
        messages := [] |}).
Proof.
  apply (schedule_task_unhealthy (scripted (unhealthy 503)) "org-1"
           boefje_item (Some "DnsRecords")
           (Some "Hostname|internet|example.com") fresh).
  - reflexivity.
  - intros (res & Hres & Hcode & _).
    injection Hres as <-. discriminate Hcode.
Defined.

Lemma get_details_of_task_outcomes_witness :
  fst (get_details_of_task (scripted (answering 404)) (Some "0b1e6a0c") fresh)
  = Raise Http404
  /\ get_details_of_task (scripted (answering 200)) None fresh
     = (Ok (Some "task-1"),
        {| sent := [GET "http://mula:8000/health" [];
                    GET "http://mula:8000/tasks/None" []];
           messages := [] |}).
Proof.
  split.
  - rewrite (get_details_of_task_outcomes (scripted (answering 404))
               (Some "0b1e6a0c") fresh).
    + reflexivity.
    + exists {| status_code := 200; content := "healthy" |}. repeat split.
  - rewrite (get_details_of_task_outcomes (scripted (answering 200)) None
               fresh).
    + reflexivity.
    + exists {| status_code := 200; content := "healthy" |}. repeat split.
Defined.

Lemma get_list_of_tasks_lazy_sends_no_task_request_witness :
  get_list_of_tasks_lazy (scripted (answering 200)) "boefje-org-1"
    (Some "boefje") None None None None None None fresh
  = (Ok (Lazy
           {| kwargs := [("scheduler_id", QStr (Some "boefje-org-1"));
                         ("type", QStr (Some "boefje"));
                         ("status", QStr None);
                         ("min_created_at", QStr None);
                         ("max_created_at", QStr None);
                         ("input_ooi", QStr None);
                         ("plugin_id", QStr None);
                         ("boefje_name", QStr None)];
              _count := None |}),
     {| sent := [GET "http://mula:8000/health" []]; messages := [] |})
  /\ get_list_of_tasks_lazy (scripted (fun _ => ConnectionFailed))
       "boefje-org-1" (Some "boefje") None None None None None None fresh
     = (Ok EmptyList,
        {| sent := [GET "http://mula:8000/health" []];
           messages :=
             [(ERROR, Translatable "Connectivity issues with Mula.")] |}).
Proof.
  split.
  - rewrite (get_list_of_tasks_lazy_sends_no_task_request
               (scripted (answering 200))).
    reflexivity.
  - rewrite (get_list_of_tasks_lazy_sends_no_task_request
               (scripted (fun _ => ConnectionFailed))).
    reflexivity.
Defined.

Lemma count_is_cached_witness :
  count_of (scripted (answering 200))
    {| kwargs := kwargs boefje_tasks; _count := Some 42 |} fresh
  = (Ok (42, {| kwargs := kwargs boefje_tasks; _count := Some 42 |}), fresh).
Proof.
  destruct (count_is_cached (scripted (answering 200)) boefje_tasks
              {| kwargs := kwargs boefje_tasks; _count := Some 42 |} 42 fresh
              (snd (count_of (scripted (answering 200)) boefje_tasks fresh))
              eq_refl) as (_ & _ & Hc).
  apply Hc.
Defined.

Lemma getitem_window_witness :
  sent (snd (getitem (scripted (answering 200)) boefje_tasks
               (Slice (Some 10) (Some 30) None) fresh))
  = [tasks_request (scripted (answering 200))
       (("limit", QInt 20) :: ("offset", QInt 10) :: kwargs boefje_tasks)].
Proof.
  rewrite (getitem_window (scripted (answering 200)) boefje_tasks
             (Slice (Some 10) (Some 30) None) fresh eq_refl eq_refl).
  reflexivity.
Defined.

End RockySamples.
